(** * pv_heating_manager_sm: the legionella heating manager

    A shallow embedding of the Go program (package main): the token
    manager, the heating actuator, the temperature monitor tick, the
    checkpoint store and the weekly check, with the properties of the
    specification proved about them.

    Conventions.
    - [int], [int64] and [time.Duration] are 64-bit two's complement
      integers: a [Z] together with [wrap64] wherever Go arithmetic can
      overflow.
    - [float64] is a [spec_float] (the Standard Library's IEEE 754 model).
    - A [time.Time] is its instant, in nanoseconds since the Unix epoch;
      the zone used by [Format] is the local zone of the process.
    - Methods on [*HeatingManager] are computations in a state monad over
      the manager and the outside world (clock, network, file system,
      timers, log).  A method body runs without interleaving: the two
      loops and the timer callback of the program are goroutines, and
      what is proved here is what one call does on its own.
    - The clock moves while a request is on the network and between the
      two clock reads of [nextWeeklyCheckDuration]; the other statements
      of a method take no time. *)

From Stdlib Require Import ZArith Lia Bool List String Ascii SpecFloat.
From Stdlib Require Import DecimalString.
From stdpp Require Import base option gmap strings.
Import ListNotations.

Local Open Scope string_scope.
Local Open Scope Z_scope.

(** ** Machine integers *)

Module Int64.

Definition min : Z := - 2 ^ 63.
Definition max : Z := 2 ^ 63 - 1.

(** Two's complement wrap-around of Go's [int64] arithmetic. *)
Definition wrap64 (z : Z) : Z := (z + 2 ^ 63) mod 2 ^ 64 - 2 ^ 63.

Definition mul (a b : Z) : Z := wrap64 (a * b).

Definition in_range (z : Z) : Prop := min <= z <= max.

End Int64.

(** ** package time *)

Module time.

(** [time.Duration]: a count of nanoseconds in an [int64]. *)
Definition Duration := Z.

Definition Nanosecond : Duration := 1.
Definition Second : Duration := 1000000000.
Definition Minute : Duration := 60 * Second.
Definition Hour : Duration := 60 * Minute.

Definition minDuration : Duration := Int64.min.
Definition maxDuration : Duration := Int64.max.

(** [time.Time], as the instant it denotes: nanoseconds since
    1970-01-01T00:00:00Z.  The range of Go's representation (an int64
    count of seconds) is far beyond any instant the program meets and
    is not modelled; neither is the monotonic clock reading. *)
Definition Time := Z.

(** [t.After(u)] *)
Definition After (t u : Time) : bool := u <? t.

(** [t.Add(d)] *)
Definition Add (t : Time) (d : Duration) : Time := t + d.

(** [t.Sub(u)]: the difference, saturated to the range of a Duration. *)
Definition Sub (t u : Time) : Duration :=
  let d := t - u in
  if d <? minDuration then minDuration
  else if maxDuration <? d then maxDuration
  else d.

(** The whole seconds of an instant (sub-second part dropped). *)
Definition truncSecond (t : Time) : Time := t / Second * Second.

(** *** Decimal fields *)

Definition digitChar (d : Z) : ascii := ascii_of_N (Z.to_N (48 + d)).

Definition digitVal (c : ascii) : option Z :=
  let n := Z.of_N (N_of_ascii c) in
  if (48 <=? n) && (n <=? 57) then Some (n - 48) else None.

(** The [width] low decimal digits of [u], most significant first. *)
Fixpoint fixedDigits (width : nat) (u : Z) : string :=
  match width with
  | O => EmptyString
  | S w => fixedDigits w (u / 10) +:+ String (digitChar (u mod 10)) EmptyString
  end.

(** [appendInt(b, x, width)]: the decimal form of [x], zero-padded to
    [width] digits; a number that needs more digits gets them. *)
Definition appendInt (x : Z) (width : nat) : string :=
  let u := Z.abs x in
  (if x <? 0 then "-" else "") +:+
  (if u <? 10 ^ Z.of_nat width then fixedDigits width u
   else DecimalString.NilZero.string_of_uint (N.to_uint (Z.to_N u))).

(** Two decimal digits at the head of [s], and the rest of [s]. *)
Definition parseUint2 (s : string) : option (Z * string) :=
  match s with
  | String a (String b rest) =>
      x ← digitVal a; y ← digitVal b; Some (10 * x + y, rest)
  | _ => None
  end.

Definition parseUint4 (s : string) : option (Z * string) :=
  '(hi, s1) ← parseUint2 s; '(lo, s2) ← parseUint2 s1; Some (100 * hi + lo, s2).

(** The character [c] at the head of [s]. *)
Definition expect (c : ascii) (s : string) : option string :=
  match s with
  | String a rest => if Ascii.eqb a c then Some rest else None
  | EmptyString => None
  end.

(** [getnum(s, false)]: one or two decimal digits at the head of [s],
    and the rest of [s].  ([parseUint2] is [getnum(s, true)].) *)
Definition getnum (s : string) : option (Z * string) :=
  match s with
  | String a rest =>
      x ← digitVal a;
      match rest with
      | String b rest' =>
          match digitVal b with
          | Some y => Some (10 * x + y, rest')
          | None => Some (x, rest)
          end
      | EmptyString => Some (x, rest)
      end
  | EmptyString => None
  end.

(** The decimal digits at the head of [s], and the rest of [s]. *)
Fixpoint leadingDigits (s : string) : list Z * string :=
  match s with
  | String c rest =>
      match digitVal c with
      | Some d => let (ds, r) := leadingDigits rest in (d :: ds, r)
      | None => ([], s)
      end
  | EmptyString => ([], s)
  end.

(** [parseNanoseconds]: the nanoseconds that the digits of a fractional
    second denote; digits after the ninth are dropped. *)
Definition nanoseconds (ds : list Z) : Z :=
  fold_left (fun acc d => 10 * acc + d) (firstn 9 (ds ++ repeat 0 9%nat)) 0.

(** A fractional second in the input where the layout has none: a period
    or a comma followed by at least one digit. *)
Definition parseFraction (s : string) : Z * string :=
  match s with
  | String c (String d rest) =>
      match digitVal d with
      | Some _ =>
          if Ascii.eqb c "." || Ascii.eqb c "," then
            let (ds, r) := leadingDigits (String d rest) in (nanoseconds ds, r)
          else (0, s)
      | None => (0, s)
      end
  | _ => (0, s)
  end.

(** *** The proleptic Gregorian calendar *)

Definition isLeap (year : Z) : bool :=
  (year mod 4 =? 0) && (negb (year mod 100 =? 0) || (year mod 400 =? 0)).

(** Days from 0000-01-01 to the first of January of [year]. *)
Definition daysBeforeYear (year : Z) : Z :=
  365 * year + (year + 3) / 4 - (year + 99) / 100 + (year + 399) / 400.

(** Days of the year before the first of [month] ([month] = 13: the
    length of the year). *)
Definition daysBefore (leap : bool) (month : Z) : Z :=
  let l := if leap then 1 else 0 in
  match month with
  | 1 => 0 | 2 => 31 | 3 => 59 + l | 4 => 90 + l | 5 => 120 + l
  | 6 => 151 + l | 7 => 181 + l | 8 => 212 + l | 9 => 243 + l
  | 10 => 273 + l | 11 => 304 + l | 12 => 334 + l | _ => 365 + l
  end.

Definition daysIn (leap : bool) (month : Z) : Z :=
  daysBefore leap (month + 1) - daysBefore leap month.

(** The day number of 1970-01-01. *)
Definition unixEpochDay : Z := 719528.

Definition yearOfDay (n : Z) : Z :=
  let y := 400 * n / 146097 in
  if daysBeforeYear (y + 1) <=? n then y + 1
  else if n <? daysBeforeYear y then y - 1
  else y.

Definition monthOfYday (leap : bool) (yday : Z) : Z :=
  match List.find (fun m => daysBefore leap m <=? yday)
                  [12; 11; 10; 9; 8; 7; 6; 5; 4; 3; 2] with
  | Some m => m
  | None => 1
  end.

Record Civil := mkCivil
  { year : Z; month : Z; day : Z; hour : Z; minute : Z; second : Z }.

(** The calendar date and clock time of a count of seconds since the
    Unix epoch. *)
Definition civilOfSeconds (sec : Z) : Civil :=
  let n := sec / 86400 + unixEpochDay in
  let sod := sec mod 86400 in
  let y := yearOfDay n in
  let yday := n - daysBeforeYear y in
  let m := monthOfYday (isLeap y) yday in
  mkCivil y m (yday - daysBefore (isLeap y) m + 1)
          (sod / 3600) (sod mod 3600 / 60) (sod mod 60).

(** The inverse: seconds since the Unix epoch of a calendar date. *)
Definition secondsOfCivil (c : Civil) : Z :=
  (daysBeforeYear (year c) + daysBefore (isLeap (year c)) (month c)
   + (day c - 1) - unixEpochDay) * 86400
  + hour c * 3600 + minute c * 60 + second c.

(** *** The layout RFC3339 = 2006-01-02T15:04:05Z07:00 *)

(** The zone suffix: Z for UTC, otherwise sign, hours and minutes; the
    seconds of an offset are not written. *)
Definition formatZone (offset : Z) : string :=
  if offset =? 0 then "Z"
  else
    let zone := Z.quot offset 60 in
    (if zone <? 0 then "-" else "+") +:+
    appendInt (Z.quot (Z.abs zone) 60) 2 +:+ ":" +:+
    appendInt (Z.rem (Z.abs zone) 60) 2.

(** [t.Format(time.RFC3339)] for a time whose location has the given
    offset (seconds east of UTC) at [t]. *)
Definition Format (offset : Z) (t : Time) : string :=
  let c := civilOfSeconds (t / Second + offset) in
  appendInt (year c) 4 +:+ "-" +:+ appendInt (month c) 2 +:+ "-" +:+
  appendInt (day c) 2 +:+ "T" +:+ appendInt (hour c) 2 +:+ ":" +:+
  appendInt (minute c) 2 +:+ ":" +:+ appendInt (second c) 2 +:+
  formatZone offset.

(** The zone of the layout element Z07:00, which ends the text: Z, or a
    sign, two digits, a colon and two digits.  The range test lets an
    offset of 24 hours or of 60 minutes through, as Go's does. *)
Definition parseZone (s : string) : option Z :=
  match s with
  | String "Z" EmptyString => Some 0
  | String sign s1 =>
      '(hr, s2) ← parseUint2 s1;
      s3 ← expect ":" s2;
      '(mm, s4) ← parseUint2 s3;
      if negb (String.eqb s4 "") || (24 <? hr) || (60 <? mm) then None
      else if Ascii.eqb sign "+" then Some ((hr * 60 + mm) * 60)
      else if Ascii.eqb sign "-" then Some (- ((hr * 60 + mm) * 60))
      else None
  | EmptyString => None
  end.

(** [time.Parse(time.RFC3339, s)]; [None] is a parse error.  This is the
    general parser of package time (as of Go 1.20), to which [Parse]
    falls back when its strict RFC 3339 reader refuses the text, and
    which accepts all that the strict reader accepts: four digits of
    year, two of month and of day, an hour of one or two digits, two
    digits of minute and of second, an optional fractional second after
    a period or a comma, and the zone; every field in its range and the
    day within its month.  The result carries the fractional second. *)
Definition Parse (s : string) : option Time :=
  '(y, s) ← parseUint4 s;
  s ← expect "-" s;
  '(m, s) ← parseUint2 s;
  s ← expect "-" s;
  '(d, s) ← parseUint2 s;
  s ← expect "T" s;
  '(hh, s) ← getnum s;
  s ← expect ":" s;
  '(mi, s) ← parseUint2 s;
  s ← expect ":" s;
  '(ss, s) ← parseUint2 s;
  let '(nsec, s) := parseFraction s in
  offset ← parseZone s;
  if (1 <=? m) && (m <=? 12) && (1 <=? d) && (d <=? daysIn (isLeap y) m)
     && (hh <=? 23) && (mi <=? 59) && (ss <=? 59)
  then Some ((secondsOfCivil (mkCivil y m d hh mi ss) - offset) * Second + nsec)
  else None.

(** The instants whose local calendar year has four digits. *)
Definition fourDigitYear (offset : Z) (t : Time) : Prop :=
  - unixEpochDay * 86400 <= t / Second + offset
    < (daysBeforeYear 10000 - unixEpochDay) * 86400.

End time.

(** ** float64 *)

Definition float64 := spec_float.

(** [a > b] and [a <= b] on float64 (false whenever a NaN is involved). *)
Definition float64_gt (a b : float64) : bool := SFltb b a.
Definition float64_le (a b : float64) : bool := SFleb a b.

(** ** encoding/json, net/http, os, log: the data exchanged *)

(** The values this program hands to [json.Marshal]: maps from strings
    to strings or integers.  Marshalling them cannot fail, so a request
    body is kept as the value it encodes. *)
Inductive JSONValue :=
| JString (s : string)
| JNumber (n : Z).

Definition JSON := list (string * JSONValue).

Record Request := mkRequest
  { Method : string;
    URL : string;
    Header : list (string * string);
    RequestBody : option JSON }.

Record Response := mkResponse
  { StatusCode : Z;
    Body : string }.

Definition StatusOK : Z := 200.
Definition StatusNoContent : Z := 204.

(** What the network does with one request: the time it takes, and a
    transport error (its text) or a response. *)
Record Exchange := mkExchange
  { elapsed : time.Duration;
    reply : string + Response }.

(** A Go [error]: [None] is nil, [Some msg] an error with that text. *)
Definition error := option string.

(** [%d] *)
Definition itoa (z : Z) : string := NilZero.string_of_int (Z.to_int z).

(** The function values given to [time.AfterFunc]. *)
Inductive Closure :=
| turnHeatingOffLater.   (* func() { if err := hm.turnHeatingOff(); err != nil { log ... } } *)

Record Timer := mkTimer
  { armedAt : time.Time;
    delay : time.Duration;
    callback : Closure }.

(** The lines written by [log.Printf], [fmt.Printf] and [fmt.Println],
    by call site. *)
Inductive Output :=
| LogFailedToGetTemperature (err : string)
| PrintTemperatureExceeded (threshold : float64)
| PrintTemperatureOK (temperature : float64)
| LogFailedToTurnOnHeating (err : string)
| LogFailedToTurnOffHeating (err : string)
| PrintHeatPumpStateChanged
| LogFailedToSaveLastCheckTime (err : string).

(** Library functions whose results depend only on their arguments and
    whose code is outside the repository. *)
Record Runtime := mkRuntime
  { (** [json.NewDecoder(body).Decode(&result)] into
        [struct{AccessToken string; ExpiresIn int}] *)
    decodeAuth : string -> string + (string * Z);
    (** the same into [struct{Data struct{CurrentWaterTemp float64}}] *)
    decodeTemperature : string -> string + float64;
    (** the URL check of [http.NewRequest]: [Some msg] is its error *)
    checkURL : string -> option string;
    (** [fmt.Sprintf(format, arg)] with one string operand *)
    Sprintf : string -> string -> string }.

(** ** The configuration and the manager *)

(** [Config] as config.go declares it; the declaration in
    heating_manager.go stops at [Password]. *)
Record Config := mkConfig
  { SolarManagerURL : string;
    SolarManagerSensorID : string;
    TemperatureThreshold : float64;
    TemperatureTurnOff : float64;
    CheckInterval : Z;
    WeeklyCheckInterval : Z;
    Username : string;
    Password : string;
    HeatPumpID : string;
    HeatPumpControlURL : string }.

Module HM.
Record HeatingManager := mk
  { Config : Config;
    TemperatureExceeded : bool;
    CheckInterval : time.Duration;
    LastCheckFile : string;
    Token : string;
    TokenExpiry : time.Time }.
End HM.

(** The world outside the manager. *)
Record World := makeWorld
  { clock : time.Time;              (* what time.Now() returns *)
    zone : Z;                       (* offset of time.Local, seconds east of UTC *)
    network : list Exchange;        (* the exchanges to come, in order *)
    sent : list Request;            (* the requests performed, oldest first *)
    files : gmap string string;     (* the files and their contents *)
    denied : gset string;           (* paths on which os.ReadFile and os.WriteFile fail *)
    timers : list Timer;            (* the timers armed, oldest first *)
    output : list Output;           (* the lines logged and printed, oldest first *)
    torn : gmap string nat;         (* for a failing path that can still be opened for
                                       writing: the bytes that reach the file before
                                       the write fails *)
    lag : time.Duration }.          (* the time between the clock read of
                                       nextWeeklyCheckDuration and that of its
                                       time.Until *)

(** A world in which a failing path cannot even be opened and the two
    clock reads of [nextWeeklyCheckDuration] give the same instant. *)
Definition mkWorld (now : time.Time) (offset : Z) (net : list Exchange)
  (reqs : list Request) (fs : gmap string string) (failing : gset string)
  (tms : list Timer) (out : list Output) : World :=
  makeWorld now offset net reqs fs failing tms out ∅ 0.

Record State := mkState
  { hm : HM.HeatingManager;
    world : World }.

(** ** The state monad of the methods *)

Definition M (A : Type) : Type := State -> A * State.

Definition ret {A} (a : A) : M A := fun s => (a, s).

Definition bind {A B} (m : M A) (k : A -> M B) : M B :=
  fun s => let (a, s') := m s in k a s'.

Notation "x <- m ;; k" := (bind m (fun x => k))
  (at level 100, m at next level, right associativity).
Notation "m ;; k" := (bind m (fun _ => k))
  (at level 100, right associativity).

Definition getHM : M HM.HeatingManager := fun s => (hm s, s).

Definition setTemperatureExceeded (b : bool) : M unit := fun s =>
  let h := hm s in
  (tt, mkState (HM.mk (HM.Config h) b (HM.CheckInterval h) (HM.LastCheckFile h)
                      (HM.Token h) (HM.TokenExpiry h)) (world s)).

Definition setToken (tok : string) : M unit := fun s =>
  let h := hm s in
  (tt, mkState (HM.mk (HM.Config h) (HM.TemperatureExceeded h) (HM.CheckInterval h)
                      (HM.LastCheckFile h) tok (HM.TokenExpiry h)) (world s)).

Definition setTokenExpiry (t : time.Time) : M unit := fun s =>
  let h := hm s in
  (tt, mkState (HM.mk (HM.Config h) (HM.TemperatureExceeded h) (HM.CheckInterval h)
                      (HM.LastCheckFile h) (HM.Token h) t) (world s)).

(** [time.Now()] *)
Definition Now : M time.Time := fun s => (clock (world s), s).

(** [time.Until(t)], that is [t.Sub(time.Now())] *)
Definition Until (t : time.Time) : M time.Duration :=
  now <- Now ;; ret (time.Sub t now).

(** [log.Printf], [fmt.Printf], [fmt.Println] *)
Definition emit (o : Output) : M unit := fun s =>
  let w := world s in
  (tt, mkState (hm s)
         (makeWorld (clock w) (zone w) (network w) (sent w) (files w) (denied w)
                    (timers w) (output w ++ [o]) (torn w) (lag w))).

(** [time.AfterFunc(d, f)] *)
Definition AfterFunc (d : time.Duration) (f : Closure) : M unit := fun s =>
  let w := world s in
  (tt, mkState (hm s)
         (makeWorld (clock w) (zone w) (network w) (sent w) (files w) (denied w)
                    (timers w ++ [mkTimer (clock w) d f]) (output w) (torn w) (lag w))).

(** [client.Do(req)]: the request goes out and the next exchange of the
    network answers it; with no exchange left the connection fails. *)
Definition Do (req : Request) : M (string + Response) := fun s =>
  let w := world s in
  match network w with
  | [] =>
      (inl "connection refused",
       mkState (hm s)
         (makeWorld (clock w) (zone w) [] (sent w ++ [req]) (files w) (denied w)
                    (timers w) (output w) (torn w) (lag w)))
  | x :: rest =>
      (reply x,
       mkState (hm s)
         (makeWorld (time.Add (clock w) (elapsed x)) (zone w) rest (sent w ++ [req])
                    (files w) (denied w) (timers w) (output w) (torn w) (lag w)))
  end.

(** [os.ReadFile(name)] *)
Definition ReadFile (name : string) : M (string + string) := fun s =>
  let w := world s in
  if decide (name ∈ denied w) then (inl ("open " +:+ name +:+ ": permission denied"), s)
  else match files w !! name with
       | None => (inl ("open " +:+ name +:+ ": no such file or directory"), s)
       | Some data => (inr data, s)
       end.

(** The file [name] with the contents [data]. *)
Definition store (name data : string) : M unit := fun s =>
  let w := world s in
  (tt, mkState (hm s)
         (makeWorld (clock w) (zone w) (network w) (sent w)
                    (<[name := data]> (files w)) (denied w) (timers w) (output w)
                    (torn w) (lag w))).

(** [os.WriteFile(name, data, 0644)]: the file is opened with O_CREATE
    and O_TRUNC, written and closed.  On a failing path either the open
    is refused, and the file stays as it was, or the open has truncated
    the file and the write fails after [n] bytes, which leaves the file
    with the first [n] bytes of [data] (none, when [n] is 0). *)
Definition WriteFile (name data : string) : M error := fun s =>
  let w := world s in
  if decide (name ∈ denied w) then
    match torn w !! name with
    | None => (Some ("open " +:+ name +:+ ": permission denied"), s)
    | Some n =>
        (Some ("write " +:+ name +:+ ": input/output error"),
         snd (store name (String.substring 0 n data) s))
    end
  else (None, snd (store name data s)).

(** The time that passes before the next statement reads the clock. *)
Definition elapse : M unit := fun s =>
  let w := world s in
  (tt, mkState (hm s)
         (makeWorld (time.Add (clock w) (lag w)) (zone w) (network w) (sent w)
                    (files w) (denied w) (timers w) (output w) (torn w) (lag w))).

Section Program.

Variable rt : Runtime.

(** The two copies of [turnHeatingOn] and [turnHeatingOff] in the
    repository differ in one expression, the URL of the request:
    heating_manager.go formats a literal, heating_control.go the
    configured template.  [controlURL] is that expression. *)
Variable controlURL : Config -> string.

(** [http.NewRequest(method, url, body)] *)
Definition NewRequest (method url : string) (body : option JSON)
  : string + Request :=
  match checkURL rt url with
  | Some err => inl err
  | None => inr (mkRequest method url [] body)
  end.

(** [req.Header.Add(key, value)] and [req.Header.Set(key, value)] on a
    key that the request does not have yet. *)
Definition addHeader (req : Request) (key value : string) : Request :=
  mkRequest (Method req) (URL req) (Header req ++ [(key, value)]) (RequestBody req).

(** [http.Post(url, contentType, body)] *)
Definition Post (url contentType : string) (body : JSON) : M (string + Response) :=
  match NewRequest "POST" url (Some body) with
  | inl err => ret (inl err)
  | inr req => Do (addHeader req "Content-Type" contentType)
  end.

(** *** auth.go *)

Definition login : M error :=
  h <- getHM ;;
  let url := "https://cloud.solar-manager.ch/v1/oauth/login" in
  let credentials :=
    [("email", JString (Username (HM.Config h)));
     ("password", JString (Password (HM.Config h)))] in
  r <- Post url "application/json" credentials ;;
  match r with
  | inl err => ret (Some ("error making auth request: " +:+ err))
  | inr resp =>
      if negb (StatusCode resp =? StatusOK) then
        ret (Some ("authentication failed: status code " +:+ itoa (StatusCode resp)
                   +:+ ", body: " +:+ Body resp))
      else
        match decodeAuth rt (Body resp) with
        | inl err => ret (Some ("error decoding auth response: " +:+ err))
        | inr (AccessToken, ExpiresIn) =>
            setToken AccessToken ;;
            now <- Now ;;
            setTokenExpiry (time.Add now (Int64.mul ExpiresIn time.Second)) ;;
            ret None
        end
  end.

Definition refreshToken : M error :=
  h <- getHM ;;
  let url := "https://cloud.solar-manager.ch/v1/oauth/refresh" in
  match NewRequest "POST" url None with
  | inl err => ret (Some ("error creating refresh request: " +:+ err))
  | inr req =>
      let req := addHeader req "Authorization" ("Bearer " +:+ HM.Token h) in
      r <- Do req ;;
      match r with
      | inl err => ret (Some ("error executing refresh request: " +:+ err))
      | inr resp =>
          if negb (StatusCode resp =? StatusOK) then
            ret (Some ("failed to refresh token: status code "
                       +:+ itoa (StatusCode resp)))
          else
            match decodeAuth rt (Body resp) with
            | inl err => ret (Some ("error decoding refresh response: " +:+ err))
            | inr (AccessToken, ExpiresIn) =>
                setToken AccessToken ;;
                now <- Now ;;
                setTokenExpiry (time.Add now (Int64.mul ExpiresIn time.Second)) ;;
                ret None
            end
      end
  end.

Definition getAuthToken : M error :=
  h <- getHM ;;
  if String.eqb (HM.Token h) "" then login
  else
    now <- Now ;;
    if time.After now (HM.TokenExpiry h) then refreshToken
    else ret None.

(** *** heating_control.go *)

Definition makeHeatingControlRequest (url : string) (requestBody : JSON) : M error :=
  match NewRequest "PUT" url (Some requestBody) with
  | inl err => ret (Some ("error creating request: " +:+ err))
  | inr req =>
      h <- getHM ;;
      let req := addHeader req "Authorization" ("Bearer " +:+ HM.Token h) in
      let req := addHeader req "Content-Type" "application/json" in
      r <- Do req ;;
      match r with
      | inl err => ret (Some ("error executing request: " +:+ err))
      | inr resp =>
          if negb (StatusCode resp =? StatusOK)
             && negb (StatusCode resp =? StatusNoContent) then
            ret (Some ("failed to modify heat pump state, status code: "
                       +:+ itoa (StatusCode resp)))
          else if StatusCode resp =? StatusOK then
            emit PrintHeatPumpStateChanged ;; ret None
          else ret None
      end
  end.

Definition chargingMode (mode : Z) : JSON :=
  [("heatPumpChargingMode", JNumber mode)].

Definition turnHeatingOn : M error :=
  e <- getAuthToken ;;
  match e with
  | Some err => ret (Some ("error getting auth token: " +:+ err))
  | None =>
      h <- getHM ;;
      let url := controlURL (HM.Config h) in
      makeHeatingControlRequest url (chargingMode 1)
  end.

Definition turnHeatingOff : M error :=
  e <- getAuthToken ;;
  match e with
  | Some err => ret (Some ("error getting auth token: " +:+ err))
  | None =>
      h <- getHM ;;
      let url := controlURL (HM.Config h) in
      makeHeatingControlRequest url (chargingMode 2)
  end.

(** *** temperature.go *)

Definition getTemperature : M (string + float64) :=
  e <- getAuthToken ;;
  match e with
  | Some err => ret (inl err)
  | None =>
      h <- getHM ;;
      let url := SolarManagerURL (HM.Config h) +:+ "/"
                 +:+ SolarManagerSensorID (HM.Config h) in
      match NewRequest "GET" url None with
      | inl err => ret (inl ("error creating request: " +:+ err))
      | inr req =>
          let req := addHeader req "Authorization" ("Bearer " +:+ HM.Token h) in
          r <- Do req ;;
          match r with
          | inl err => ret (inl ("failed to get temperature: " +:+ err))
          | inr resp =>
              if negb (StatusCode resp =? StatusOK) then
                ret (inl ("failed to get temperature: status code "
                          +:+ itoa (StatusCode resp)))
              else
                match decodeTemperature rt (Body resp) with
                | inl err =>
                    ret (inl ("failed to unmarshal temperature response: " +:+ err))
                | inr CurrentWaterTemp => ret (inr CurrentWaterTemp)
                end
          end
      end
  end.

Definition checkTemperature : M unit :=
  r <- getTemperature ;;
  match r with
  | inl err => emit (LogFailedToGetTemperature err)
  | inr temperature =>
      h <- getHM ;;
      if float64_gt temperature (TemperatureThreshold (HM.Config h)) then
        emit (PrintTemperatureExceeded (TemperatureThreshold (HM.Config h))) ;;
        setTemperatureExceeded true
      else
        emit (PrintTemperatureOK temperature) ;;
        setTemperatureExceeded false
  end.

(** *** heating_manager.go *)

Definition saveLastCheckTime : M unit :=
  now <- Now ;;
  h <- getHM ;;
  z <- (fun s => (zone (world s), s)) ;;
  err <- WriteFile (HM.LastCheckFile h) (time.Format z now) ;;
  match err with
  | Some e => emit (LogFailedToSaveLastCheckTime e)
  | None => ret tt
  end.

Definition readLastCheckTime : M (string + time.Time) :=
  h <- getHM ;;
  r <- ReadFile (HM.LastCheckFile h) ;;
  match r with
  | inl err => ret (inl ("failed to read last check time: " +:+ err))
  | inr data =>
      match time.Parse data with
      | None =>                      (* the text of the parse error is not kept *)
          ret (inl "failed to parse last check time: cannot parse")
      | Some lastCheck => ret (inr lastCheck)
      end
  end.

Definition nextWeeklyCheckDuration : M time.Duration :=
  r <- readLastCheckTime ;;
  match r with
  | inl _ => ret 0
  | inr lastCheck =>
      h <- getHM ;;
      let nextCheck :=
        time.Add lastCheck
                 (Int64.mul (WeeklyCheckInterval (HM.Config h)) time.Hour) in
      now <- Now ;;
      if time.After now nextCheck then ret 0
      else
        elapse ;;                    (* time.Until reads the clock again, later *)
        Until nextCheck
  end.

Definition weeklyCheck : M unit :=
  h <- getHM ;;
  (if negb (HM.TemperatureExceeded h) then
     err <- turnHeatingOn ;;
     match err with
     | Some e => emit (LogFailedToTurnOnHeating e)
     | None => ret tt
     end ;;
     AfterFunc (4 * time.Hour) turnHeatingOffLater
   else ret tt) ;;
  setTemperatureExceeded false ;;
  saveLastCheckTime.

(** What a timer runs when it fires. *)
Definition runClosure (f : Closure) : M unit :=
  match f with
  | turnHeatingOffLater =>
      err <- turnHeatingOff ;;
      match err with
      | Some e => emit (LogFailedToTurnOffHeating e)
      | None => ret tt
      end
  end.

(** The common shape of [turnHeatingOn] ([mode] 1) and [turnHeatingOff]
    ([mode] 2), to state what holds of both. *)
Definition turnHeatingWith (mode : Z) : M error :=
  e <- getAuthToken ;;
  match e with
  | Some err => ret (Some ("error getting auth token: " +:+ err))
  | None =>
      h <- getHM ;;
      let url := controlURL (HM.Config h) in
      makeHeatingControlRequest url (chargingMode mode)
  end.

(** The state between the actuation branch of [weeklyCheck] and its
    last two statements. *)
Definition afterActuation (s : State) : State :=
  if HM.TemperatureExceeded (hm s) then s
  else
    let (err, s1) := turnHeatingOn s in
    let s2 := match err with
              | Some e => snd (emit (LogFailedToTurnOnHeating e) s1)
              | None => s1
              end in
    snd (AfterFunc (4 * time.Hour) turnHeatingOffLater s2).

End Program.

(** [NewHeatingManager], given the configuration that [loadConfig] read. *)
Definition NewHeatingManager (config : Config) : HM.HeatingManager :=
  HM.mk config false (Int64.mul (CheckInterval config) time.Minute)
        "lastCheck.txt" "" (-62135596800 * time.Second).

(** The URL expression of heating_manager.go:
    [fmt.Sprintf("https://cloud.solar-manager.ch/v1/control/heat-pump/%s", "xxx")]. *)
Definition controlURL_heating_manager (_ : Config) : string :=
  "https://cloud.solar-manager.ch/v1/control/heat-pump/" +:+ "xxx".

(** The URL expression of heating_control.go:
    [fmt.Sprintf(hm.Config.HeatPumpControlURL, hm.Config.HeatPumpID)]. *)
Definition controlURL_heating_control (rt : Runtime) (c : Config) : string :=
  Sprintf rt (HeatPumpControlURL c) (HeatPumpID c).

(** ** What a method leaves alone *)

(** Everything but the session (token and expiry), the clock, the
    network and the output. *)
Record frame (s s' : State) : Prop := mkFrame
  { frame_Config : HM.Config (hm s') = HM.Config (hm s);
    frame_TemperatureExceeded :
      HM.TemperatureExceeded (hm s') = HM.TemperatureExceeded (hm s);
    frame_CheckInterval : HM.CheckInterval (hm s') = HM.CheckInterval (hm s);
    frame_LastCheckFile : HM.LastCheckFile (hm s') = HM.LastCheckFile (hm s);
    frame_zone : zone (world s') = zone (world s);
    frame_files : files (world s') = files (world s);
    frame_denied : denied (world s') = denied (world s);
    frame_timers : timers (world s') = timers (world s) }.

(** What stays as it was while time passes: everything but the clock. *)
Definition onlyClockMoves (s s' : State) : Prop :=
  hm s' = hm s /\ zone (world s') = zone (world s) /\
  network (world s') = network (world s) /\ sent (world s') = sent (world s) /\
  files (world s') = files (world s) /\ denied (world s') = denied (world s) /\
  timers (world s') = timers (world s) /\ output (world s') = output (world s) /\
  torn (world s') = torn (world s) /\ lag (world s') = lag (world s).

(** The requests sent between two states. *)
Definition sentBetween (s s' : State) (l : list Request) : Prop :=
  sent (world s') = (sent (world s) ++ l)%list.

(** ** Observing the commands sent to the heat pump *)

#[global] Instance JSONValue_eq_dec : EqDecision JSONValue.
Proof. solve_decision. Defined.

(** [req] is a heating control command with the given charging mode. *)
Definition isCommand (mode : Z) (req : Request) : bool :=
  String.eqb (Method req) "PUT"
  && bool_decide (RequestBody req = Some (chargingMode mode)).

(** How many of [reqs] are commands with the given mode. *)
Definition commands (mode : Z) (reqs : list Request) : nat :=
  length (List.filter (isCommand mode) reqs).

(** The control request that [makeHeatingControlRequest] builds. *)
Definition controlRequest (url token : string) (mode : Z) : Request :=
  mkRequest "PUT" url
            [("Authorization", "Bearer " +:+ token);
             ("Content-Type", "application/json")]
            (Some (chargingMode mode)).

(** ** The delay of the specification *)

(** [computeNextDelay] as the specification words it, on exact
    integers: no checkpoint, fire at once; otherwise wait until the
    checkpoint plus the interval, and not at all if that has passed. *)
Definition computeNextDelay (now : time.Time) (checkpoint : option time.Time)
  (weeklyIntervalHours : Z) : Z :=
  match checkpoint with
  | None => 0
  | Some lastCheckTime =>
      let nextDue := lastCheckTime + weeklyIntervalHours * time.Hour in
      if nextDue <=? now then 0 else nextDue - now
  end.

(** The checkpoint as [load()] gives it: [None] when reading or parsing
    fails. *)
Definition loadCheckpoint (s : State) : option time.Time :=
  match fst (readLastCheckTime s) with
  | inl _ => None
  | inr lastCheck => Some lastCheck
  end.

(** ** The two loops *)

(** Each loop as it runs on its own, for a finite number of rounds: the
    goroutines of [main] are not interleaved here. *)

(** [time.NewTicker(d)] panics unless [d] is positive; [Some msg] is the
    panic. *)
Definition NewTicker (d : time.Duration) : option string :=
  if d <=? 0 then Some "non-positive interval for NewTicker" else None.

(** The clock at the moment a value arrives on a ticker or timer
    channel. *)
Definition arrive (t : time.Time) : M unit := fun s =>
  let w := world s in
  (tt, mkState (hm s)
         (makeWorld t (zone w) (network w) (sent w) (files w) (denied w)
                    (timers w) (output w) (torn w) (lag w))).

(** The requests of the token manager. *)
Definition loginRequest (c : Config) : Request :=
  mkRequest "POST" "https://cloud.solar-manager.ch/v1/oauth/login"
            [("Content-Type", "application/json")]
            (Some [("email", JString (Username c));
                   ("password", JString (Password c))]).

Definition refreshRequest (token : string) : Request :=
  mkRequest "POST" "https://cloud.solar-manager.ch/v1/oauth/refresh"
            [("Authorization", "Bearer " +:+ token)] None.

(** The request of the temperature reader. *)
Definition sensorRequest (c : Config) (token : string) : Request :=
  mkRequest "GET" (SolarManagerURL c +:+ "/" +:+ SolarManagerSensorID c)
            [("Authorization", "Bearer " +:+ token)] None.

Section Loops.

Variable rt : Runtime.
Variable controlURL : Config -> string.

(** The loop of [StartTemperatureMonitoring], for the ticks that arrive
    at the given instants. *)
Fixpoint monitoringLoop (arrivals : list time.Time) : M unit :=
  match arrivals with
  | [] => ret tt
  | t :: rest => arrive t ;; checkTemperature rt ;; monitoringLoop rest
  end.

(** [StartTemperatureMonitoring]; the result is the panic of
    [time.NewTicker], if it panics. *)
Definition StartTemperatureMonitoring (arrivals : list time.Time)
  : M (option string) :=
  h <- getHM ;;
  match NewTicker (HM.CheckInterval h) with
  | Some panic => ret (Some panic)
  | None => monitoringLoop arrivals ;; ret None
  end.

(** The body of the loop of [StartWeeklyCheck]: the check, then the
    duration the timer is reset to. *)
Definition weeklyRound : M time.Duration :=
  weeklyCheck rt controlURL ;; nextWeeklyCheckDuration.

(** The loop of [StartWeeklyCheck] with the timer set to [d]: the timer
    fires once [d] has passed (at once when [d] is not positive), late
    by what the scheduler adds, one fire per element of [lateness]. *)
Fixpoint weeklyLoop (lateness : list time.Duration) (d : time.Duration)
  : M time.Duration :=
  match lateness with
  | [] => ret d
  | late :: rest =>
      now <- Now ;;
      arrive (now + Z.max d 0 + late) ;;
      d' <- weeklyRound ;;
      weeklyLoop rest d'
  end.

(** [StartWeeklyCheck]; the result is the duration the timer is left
    with after the fires. *)
Definition StartWeeklyCheck (lateness : list time.Duration)
  : M time.Duration :=
  d <- nextWeeklyCheckDuration ;;
  weeklyLoop lateness d.

End Loops.


(** The answer that makes a login or a refresh succeed: the next
    exchange of the network is a response with status 200 whose body
    decodes to the token [tok] valid for [exp] seconds. *)
Definition authAnswer (rt : Runtime) (s : State) (tok : string) (exp : Z) : Prop :=
  exists x rest resp,
    network (world s) = x :: rest /\ reply x = inr resp /\
    StatusCode resp = StatusOK /\ decodeAuth rt (Body resp) = inr (tok, exp).


(** What the monitoring leaves alone: the configuration, the checkpoint
    and the timers. *)
Definition keepsCheckpointAndTimers (s s' : State) : Prop :=
  HM.Config (hm s') = HM.Config (hm s) /\
  HM.CheckInterval (hm s') = HM.CheckInterval (hm s) /\
  HM.LastCheckFile (hm s') = HM.LastCheckFile (hm s) /\
  zone (world s') = zone (world s) /\
  files (world s') = files (world s) /\
  denied (world s') = denied (world s) /\
  timers (world s') = timers (world s).

(** ** A runtime and a world to run the program on *)

(** [fmt.Sprintf(format, arg)] for the verbs [%s], [%v] and [%%] without
    flags, including what Go prints for an unknown verb, a missing or an
    unused operand. *)
Fixpoint sprintf (format : string) (arg : option string) : string :=
  match format with
  | EmptyString =>
      match arg with
      | Some a => "%!(EXTRA string=" +:+ a +:+ ")"
      | None => EmptyString
      end
  | String "%" EmptyString =>
      "%!(NOVERB)" +:+
      match arg with
      | Some a => "%!(EXTRA string=" +:+ a +:+ ")"
      | None => EmptyString
      end
  | String "%" (String c rest) =>
      if Ascii.eqb c "%" then String "%" (sprintf rest arg)
      else
        match arg with
        | Some a =>
            (if Ascii.eqb c "s" || Ascii.eqb c "v" then a
             else "%!" +:+ String c "(string=" +:+ a +:+ ")")
            +:+ sprintf rest None
        | None => "%!" +:+ String c "(MISSING)" +:+ sprintf rest None
        end
  | String c rest => String c (sprintf rest arg)
  end.

(** The float64 nearest to an integer. *)
Definition float64_of_Z (z : Z) : float64 := binary_normalize 53 1024 z 0 false.

(** A runtime for examples.  Its decoders stand for encoding/json on a
    toy wire format: an authentication body is the token itself, valid
    for an hour; a temperature body is two decimal digits. *)
Definition sampleRuntime : Runtime :=
  mkRuntime
    (fun body => if String.eqb body "" then inl "EOF" else inr (body, 3600))
    (fun body =>
       match time.parseUint2 body with
       | Some (n, EmptyString) => inr (float64_of_Z n)
       | _ => inl "invalid character"
       end)
    (fun _ => None)
    (fun format arg => sprintf format (Some arg)).

Definition sampleConfig : Config :=
  mkConfig "https://cloud.solar-manager.ch/v1/stream/sensor/site" "sensor1"
           (float64_of_Z 55) (float64_of_Z 60) 5 168 "user" "secret"
           "42" "https://pump.example/v1/control/heat-pump/%s".

(** 2024-07-01T12:00:00Z *)
Definition sampleNoon : time.Time := 1719835200 * time.Second.

Definition sampleWorld (now : time.Time) (net : list Exchange)
  (fs : gmap string string) : World :=
  mkWorld now 0 net [] fs ∅ [] [].

Definition ok (status : Z) (body : string) : Exchange :=
  mkExchange (2 * time.Second) (inr (mkResponse status body)).

(** The sample configuration with another weekly interval. *)
Definition longInterval (hours : Z) : Config :=
  mkConfig (SolarManagerURL sampleConfig) (SolarManagerSensorID sampleConfig)
           (TemperatureThreshold sampleConfig) (TemperatureTurnOff sampleConfig)
           (CheckInterval sampleConfig) hours (Username sampleConfig)
           (Password sampleConfig) (HeatPumpID sampleConfig)
           (HeatPumpControlURL sampleConfig).

(** A manager that holds a token valid for an hour from [sampleNoon]. *)
Definition loggedIn (exceeded : bool) : HM.HeatingManager :=
  HM.mk sampleConfig exceeded (5 * time.Minute) "lastCheck.txt" "tok1"
        (sampleNoon + 3600 * time.Second).

(** The sample configuration with another monitoring interval. *)
Definition withCheckInterval (minutes : Z) : Config :=
  mkConfig (SolarManagerURL sampleConfig) (SolarManagerSensorID sampleConfig)
           (TemperatureThreshold sampleConfig) (TemperatureTurnOff sampleConfig)
           minutes (WeeklyCheckInterval sampleConfig) (Username sampleConfig)
           (Password sampleConfig) (HeatPumpID sampleConfig)
           (HeatPumpControlURL sampleConfig).

(** * Properties *)

(** ** Machine integers *)

Lemma wrap64_range z : Int64.in_range (Int64.wrap64 z).
Proof.
  unfold Int64.in_range, Int64.wrap64, Int64.min, Int64.max.
  pose proof (Z.mod_pos_bound (z + 2 ^ 63) (2 ^ 64) ltac:(lia)). lia.
Qed.

Lemma wrap64_id z : Int64.in_range z -> Int64.wrap64 z = z.
Proof.
  unfold Int64.in_range, Int64.wrap64, Int64.min, Int64.max. intros H.
  rewrite Z.mod_small by lia. lia.
Qed.

(** ** The layout RFC3339: parsing what was formatted *)

Section TimeFacts.
Import time.

Example format_epoch : Format 0 0 = "1970-01-01T00:00:00Z".
Proof. reflexivity. Qed.

Example format_zurich :
  Format 7200 (1719835506 * Second + 123456789)
  = "2024-07-01T14:05:06+02:00".
Proof. vm_compute. reflexivity. Qed.

Example parse_zurich :
  Parse "2024-07-01T14:05:06+02:00" = Some (1719835506 * Second).
Proof. vm_compute. reflexivity. Qed.

Example format_leap_day :
  Format (-3600) (951868799 * Second) = "2000-02-29T22:59:59-01:00".
Proof. vm_compute. reflexivity. Qed.

Example format_year_10000 :
  Format 0 (253402300800 * Second) = "10000-01-01T00:00:00Z".
Proof. vm_compute. reflexivity. Qed.

Example parse_year_10000 : Parse "10000-01-01T00:00:00Z" = None.
Proof. vm_compute. reflexivity. Qed.

(** Texts that [Format] never writes and [Parse] accepts. *)
Example parse_fraction :
  Parse "2024-07-01T12:00:00.5Z" = Some (1719835200 * Second + 500000000).
Proof. vm_compute. reflexivity. Qed.

Example parse_comma_fraction :
  Parse "2024-07-01T12:00:00,123456789123+02:00"
  = Some (1719828000 * Second + 123456789).
Proof. vm_compute. reflexivity. Qed.

Example parse_short_hour :
  Parse "2024-07-01T9:00:00Z" = Some (1719824400 * Second).
Proof. vm_compute. reflexivity. Qed.

Example parse_zone_24 :
  Parse "2024-07-01T12:00:00+24:00" = Some (1719748800 * Second).
Proof. vm_compute. reflexivity. Qed.

Example parse_zone_25 : Parse "2024-07-01T12:00:00+25:00" = None.
Proof. vm_compute. reflexivity. Qed.

Example parse_trailing_newline :
  Parse (String.append "2024-07-01T12:00:00Z" (String "010" "")) = None.
Proof. vm_compute. reflexivity. Qed.

Example parse_second_60 : Parse "2024-07-01T12:00:60Z" = None.
Proof. vm_compute. reflexivity. Qed.

Example parse_february_30 : Parse "2024-02-30T12:00:00Z" = None.
Proof. vm_compute. reflexivity. Qed.

Lemma digitVal_digitChar d : 0 <= d < 10 -> digitVal (digitChar d) = Some d.
Proof.
  intros H.
  assert (d = 0 \/ d = 1 \/ d = 2 \/ d = 3 \/ d = 4 \/ d = 5 \/ d = 6
          \/ d = 7 \/ d = 8 \/ d = 9) as Hd by lia.
  repeat (destruct Hd as [-> | Hd]; [reflexivity |]). subst d. reflexivity.
Qed.

Lemma append_empty s : "" +:+ s = s.
Proof. reflexivity. Qed.

Lemma append_String c s r : String c s +:+ r = String c (s +:+ r).
Proof. reflexivity. Qed.

Ltac norm_append := repeat first [rewrite append_String | rewrite append_empty].

Lemma appendInt_2 n :
  0 <= n < 100 ->
  appendInt n 2 = String (digitChar (n / 10)) (String (digitChar (n mod 10)) "").
Proof.
  intros H. unfold appendInt.
  replace (n <? 0) with false by lia.
  rewrite Z.abs_eq by lia.
  replace (n <? 10 ^ Z.of_nat 2) with true by (change (10 ^ Z.of_nat 2) with 100; lia).
  cbn [fixedDigits]. norm_append.
  rewrite (Z.mod_small (n / 10)) by (split; [apply Z.div_pos | apply Z.div_lt_upper_bound]; lia).
  reflexivity.
Qed.

Lemma parseUint2_appendInt n rest :
  0 <= n < 100 -> parseUint2 (appendInt n 2 +:+ rest) = Some (n, rest).
Proof.
  intros H. rewrite appendInt_2 by assumption. norm_append.
  cbn [parseUint2].
  rewrite !digitVal_digitChar by (Z.div_mod_to_equations; lia).
  cbn. f_equal. f_equal. Z.div_mod_to_equations; lia.
Qed.

Lemma getnum_appendInt n rest :
  0 <= n < 100 -> getnum (appendInt n 2 +:+ rest) = Some (n, rest).
Proof.
  intros H. rewrite appendInt_2 by assumption. norm_append.
  cbn [getnum].
  rewrite !digitVal_digitChar by (Z.div_mod_to_equations; lia).
  cbn. f_equal. f_equal. Z.div_mod_to_equations; lia.
Qed.

Lemma appendInt_4 n :
  0 <= n < 10000 ->
  appendInt n 4 = appendInt (n / 100) 2 +:+ appendInt (n mod 100) 2.
Proof.
  intros H.
  assert (0 <= n / 100 < 100)
    by (split; [apply Z.div_pos | apply Z.div_lt_upper_bound]; lia).
  assert (0 <= n mod 100 < 100) by (apply Z.mod_pos_bound; lia).
  rewrite !appendInt_2 by assumption.
  unfold appendInt.
  replace (n <? 0) with false by lia.
  rewrite Z.abs_eq by lia.
  replace (n <? 10 ^ Z.of_nat 4) with true by (change (10 ^ Z.of_nat 4) with 10000; lia).
  cbn [fixedDigits]. norm_append.
  replace (n / 10 / 10 / 10 mod 10) with (n / 100 / 10)
    by (Z.div_mod_to_equations; lia).
  replace (n / 10 / 10 mod 10) with (n / 100 mod 10)
    by (Z.div_mod_to_equations; lia).
  replace (n / 10 mod 10) with (n mod 100 / 10)
    by (Z.div_mod_to_equations; lia).
  replace (n mod 100 mod 10) with (n mod 10)
    by (Z.div_mod_to_equations; lia).
  reflexivity.
Qed.

Lemma parseUint2_appendInt_end n :
  0 <= n < 100 -> parseUint2 (appendInt n 2) = Some (n, "").
Proof.
  intros H. rewrite <- (parseUint2_appendInt n "") by assumption.
  rewrite appendInt_2 by assumption. reflexivity.
Qed.

Lemma append_assoc (a b c : string) : (a +:+ b) +:+ c = a +:+ (b +:+ c).
Proof.
  induction a as [| x a IH]; [reflexivity |].
  rewrite !append_String. now rewrite IH.
Qed.

Lemma parseUint4_appendInt n rest :
  0 <= n < 10000 -> parseUint4 (appendInt n 4 +:+ rest) = Some (n, rest).
Proof.
  intros H. rewrite appendInt_4, append_assoc by assumption.
  unfold parseUint4.
  rewrite parseUint2_appendInt by (Z.div_mod_to_equations; lia). cbn.
  rewrite parseUint2_appendInt by (Z.div_mod_to_equations; lia). cbn.
  f_equal. f_equal. Z.div_mod_to_equations; lia.
Qed.

Lemma yearOfDay_spec n :
  daysBeforeYear (yearOfDay n) <= n < daysBeforeYear (yearOfDay n + 1).
Proof.
  unfold yearOfDay.
  set (y := 400 * n / 146097).
  assert (146097 * y <= 400 * n < 146097 * (y + 1))
    by (subst y; Z.div_mod_to_equations; lia).
  clearbody y.
  assert (daysBeforeYear (y - 1) <= n)
    by (unfold daysBeforeYear; Z.div_mod_to_equations; lia).
  assert (n < daysBeforeYear (y + 2))
    by (unfold daysBeforeYear; Z.div_mod_to_equations; lia).
  destruct (Z.leb_spec (daysBeforeYear (y + 1)) n).
  - replace (y + 1 + 1) with (y + 2) by lia. lia.
  - destruct (Z.ltb_spec n (daysBeforeYear y)).
    + replace (y - 1 + 1) with y by lia. lia.
    + lia.
Qed.

Lemma yearLength y :
  daysBeforeYear (y + 1) - daysBeforeYear y = daysBefore (isLeap y) 13.
Proof.
  unfold daysBeforeYear, isLeap, daysBefore.
  destruct (Z.eqb_spec (y mod 4) 0), (Z.eqb_spec (y mod 100) 0),
    (Z.eqb_spec (y mod 400) 0); cbn [andb orb negb];
    Z.div_mod_to_equations; lia.
Qed.

Ltac eval_daysBefore :=
  repeat match goal with
  | |- context [daysBefore ?l ?k] =>
      let v := eval vm_compute in (daysBefore l k) in
      change (daysBefore l k) with v
  | H : context [daysBefore ?l ?k] |- _ =>
      let v := eval vm_compute in (daysBefore l k) in
      change (daysBefore l k) with v in H
  end.

Lemma monthOfYday_spec leap yday :
  0 <= yday < daysBefore leap 13 ->
  1 <= monthOfYday leap yday <= 12 /\
  daysBefore leap (monthOfYday leap yday) <= yday
    < daysBefore leap (monthOfYday leap yday + 1).
Proof.
  intros H. unfold monthOfYday. cbn [List.find].
  destruct leap;
    repeat match goal with
    | |- context [daysBefore ?l ?k <=? yday] =>
        destruct (Z.leb_spec (daysBefore l k) yday);
        [ eval_daysBefore; lia | ]
    end; eval_daysBefore; lia.
Qed.

Lemma parseZone_formatZone offset :
  offset mod 60 = 0 -> -86400 < offset < 86400 ->
  parseZone (formatZone offset) = Some offset.
Proof.
  intros Hm Hr. unfold formatZone.
  destruct (Z.eqb_spec offset 0) as [-> | Hne]; [reflexivity |].
  set (zone := Z.quot offset 60).
  assert (Hz : offset = 60 * zone)
    by (subst zone; Z.to_euclidean_division_equations; lia).
  assert (Hq : 0 <= Z.quot (Z.abs zone) 60 <= 23)
    by (Z.to_euclidean_division_equations; lia).
  assert (Hre : 0 <= Z.rem (Z.abs zone) 60 <= 59)
    by (Z.to_euclidean_division_equations; lia).
  assert (Hsum : Z.quot (Z.abs zone) 60 * 60 + Z.rem (Z.abs zone) 60 = Z.abs zone)
    by (Z.to_euclidean_division_equations; lia).
  clearbody zone.
  destruct (Z.ltb_spec zone 0); norm_append; cbn [parseZone];
    rewrite parseUint2_appendInt by lia; cbn;
    rewrite parseUint2_appendInt_end by lia; cbn;
    replace (24 <? Z.quot (Z.abs zone) 60) with false by lia;
    replace (60 <? Z.rem (Z.abs zone) 60) with false by lia;
    cbn; f_equal; lia.
Qed.

(** The zone that [Format] writes starts no fractional second. *)
Lemma parseFraction_formatZone offset :
  parseFraction (formatZone offset) = (0, formatZone offset).
Proof.
  unfold formatZone.
  destruct (offset =? 0); [reflexivity |].
  destruct (Z.quot offset 60 <? 0); norm_append; cbn [parseFraction];
    match goal with
    | |- match ?s with _ => _ end = _ => destruct s as [| d rest]; [reflexivity |]
    end;
    destruct (digitVal d); reflexivity.
Qed.

Lemma civilOfSeconds_fields sec :
  let c := civilOfSeconds sec in
  1 <= month c <= 12 /\ 1 <= day c <= daysIn (isLeap (year c)) (month c) /\
  0 <= hour c <= 23 /\ 0 <= minute c <= 59 /\ 0 <= second c <= 59 /\
  secondsOfCivil c = sec.
Proof.
  unfold civilOfSeconds, secondsOfCivil, daysIn. cbn [year month day hour minute second].
  set (n := sec / 86400 + unixEpochDay).
  pose proof (yearOfDay_spec n) as Hy.
  set (y := yearOfDay n) in *.
  pose proof (yearLength y) as Hl.
  destruct (monthOfYday_spec (isLeap y) (n - daysBeforeYear y) ltac:(lia))
    as [Hm Hd].
  set (m := monthOfYday (isLeap y) (n - daysBeforeYear y)) in *.
  repeat split; try lia; Z.div_mod_to_equations; lia.
Qed.

Lemma year_range sec :
  - unixEpochDay * 86400 <= sec < (daysBeforeYear 10000 - unixEpochDay) * 86400 ->
  0 <= year (civilOfSeconds sec) < 10000.
Proof.
  intros H. unfold civilOfSeconds. cbn [year].
  set (n := sec / 86400 + unixEpochDay).
  assert (Hn : 0 <= n < daysBeforeYear 10000)
    by (subst n; unfold unixEpochDay in *; Z.div_mod_to_equations; lia).
  pose proof (yearOfDay_spec n) as Hy.
  set (y := yearOfDay n) in *. clearbody y.
  change (daysBeforeYear 10000) with 3652425 in Hn.
  unfold daysBeforeYear in Hy. Z.div_mod_to_equations; lia.
Qed.

Theorem Parse_Format offset t :
  offset mod 60 = 0 -> -86400 < offset < 86400 -> fourDigitYear offset t ->
  Parse (Format offset t) = Some (truncSecond t).
Proof.
  intros Hm Hr Hy. unfold Format, Parse, truncSecond.
  pose proof (year_range _ Hy) as Hyear.
  destruct (civilOfSeconds_fields (t / Second + offset))
    as (Hmo & Hd & Hh & Hmi & Hs & Hinv).
  set (c := civilOfSeconds (t / Second + offset)) in *.
  assert (daysIn (isLeap (year c)) (month c) <= 31).
  { unfold daysIn.
    assert (month c = 1 \/ month c = 2 \/ month c = 3 \/ month c = 4 \/
            month c = 5 \/ month c = 6 \/ month c = 7 \/ month c = 8 \/
            month c = 9 \/ month c = 10 \/ month c = 11 \/ month c = 12)
      as Hc by lia.
    destruct (isLeap (year c));
      repeat (destruct Hc as [-> | Hc]; [vm_compute; discriminate |]);
      rewrite Hc; vm_compute; discriminate. }
  clearbody c.
  rewrite parseUint4_appendInt by lia. cbn. norm_append. cbn.
  rewrite parseUint2_appendInt by lia. cbn. norm_append. cbn.
  rewrite parseUint2_appendInt by lia. cbn. norm_append. cbn.
  rewrite getnum_appendInt by lia. cbn. norm_append. cbn.
  rewrite parseUint2_appendInt by lia. cbn. norm_append. cbn.
  rewrite parseUint2_appendInt by lia. cbn.
  rewrite parseFraction_formatZone.
  rewrite parseZone_formatZone by assumption. cbn.
  replace (1 <=? month c) with true by lia.
  replace (month c <=? 12) with true by lia.
  replace (1 <=? day c) with true by lia.
  replace (day c <=? daysIn (isLeap (year c)) (month c)) with true by lia.
  replace (hour c <=? 23) with true by lia.
  replace (minute c <=? 59) with true by lia.
  replace (second c <=? 59) with true by lia.
  cbn. f_equal.
  replace {| year := year c; month := month c; day := day c; hour := hour c;
             minute := minute c; second := second c |} with c by (destruct c; reflexivity).
  rewrite Hinv. f_equal. lia.
Qed.


End TimeFacts.


(** ** The program *)

Section ProgramFacts.
Variable rt : Runtime.

Lemma frame_refl s : frame s s.
Proof. now split. Qed.

Lemma frame_trans s1 s2 s3 : frame s1 s2 -> frame s2 s3 -> frame s1 s3.
Proof. intros [] []. split; congruence. Qed.

Ltac run :=
  cbv beta iota zeta delta
    [bind ret getHM Now setToken setTokenExpiry setTemperatureExceeded
     emit AfterFunc Do Post NewRequest ReadFile WriteFile fst snd
     hm world].

Ltac split_cases :=
  repeat match goal with
  | |- context [match ?x with _ => _ end] =>
      lazymatch x with
      | context [match _ with _ => _ end] => fail
      | _ => destruct x eqn:?
      end
  end.

Lemma login_frame s : frame s (snd (login rt s)).
Proof.
  unfold login. run. split_cases; cbn; split; reflexivity.
Qed.

Lemma refreshToken_frame s : frame s (snd (refreshToken rt s)).
Proof.
  unfold refreshToken. run. split_cases; cbn; split; reflexivity.
Qed.

Lemma getAuthToken_frame s : frame s (snd (getAuthToken rt s)).
Proof.
  unfold getAuthToken, bind, getHM, Now, ret. cbn.
  destruct (String.eqb _ _); [apply login_frame |].
  destruct (time.After _ _); [apply refreshToken_frame | apply frame_refl].
Qed.

(** The session after a failed login is the session before it. *)
Lemma login_error s err :
  fst (login rt s) = Some err -> hm (snd (login rt s)) = hm s.
Proof.
  unfold login. run. split_cases; cbn; intros; try reflexivity; discriminate.
Qed.

Lemma refreshToken_error s err :
  fst (refreshToken rt s) = Some err -> hm (snd (refreshToken rt s)) = hm s.
Proof.
  unfold refreshToken. run. split_cases; cbn; intros; try reflexivity; discriminate.
Qed.


Variable controlURL : Config -> string.

Lemma makeHeatingControlRequest_frame url body s :
  frame s (snd (makeHeatingControlRequest rt url body s)).
Proof.
  unfold makeHeatingControlRequest. run. split_cases; cbn; split; reflexivity.
Qed.

Lemma bind_snd_frame {A B} (m : M A) (k : A -> M B) s :
  frame s (snd (m s)) -> (forall a s1, frame s1 (snd (k a s1))) ->
  frame s (snd (bind m k s)).
Proof.
  unfold bind. destruct (m s) as [a s1]. cbn. intros H1 H2.
  eapply frame_trans; [exact H1 | apply H2].
Qed.

Lemma turnHeatingOn_frame s : frame s (snd (turnHeatingOn rt controlURL s)).
Proof.
  unfold turnHeatingOn. apply bind_snd_frame; [apply getAuthToken_frame |].
  intros [err |] s1; [apply frame_refl |].
  apply bind_snd_frame; [apply frame_refl |].
  intros. apply makeHeatingControlRequest_frame.
Qed.

Lemma turnHeatingOff_frame s : frame s (snd (turnHeatingOff rt controlURL s)).
Proof.
  unfold turnHeatingOff. apply bind_snd_frame; [apply getAuthToken_frame |].
  intros [err |] s1; [apply frame_refl |].
  apply bind_snd_frame; [apply frame_refl |].
  intros. apply makeHeatingControlRequest_frame.
Qed.

Lemma getTemperature_frame s : frame s (snd (getTemperature rt s)).
Proof.
  unfold getTemperature. apply bind_snd_frame; [apply getAuthToken_frame |].
  intros [err |] s1; [apply frame_refl |].
  run. split_cases; cbn; split; reflexivity.
Qed.

(** ** float64 comparisons *)

Lemma SFcompare_antisym (a b : spec_float) :
  SFcompare b a = option_map CompOpp (SFcompare a b).
Proof.
  destruct a as [sa | sa | | sa ma ea], b as [sb | sb | | sb mb eb];
    cbn; try reflexivity;
    try (destruct sa; reflexivity); try (destruct sb; reflexivity);
    try (destruct sa, sb; reflexivity).
  destruct sa, sb; cbn; try reflexivity;
    rewrite (Z.compare_antisym ea eb);
    destruct (ea ?= eb)%Z; cbn; try reflexivity;
    change (PosDef.Pos.compare_cont Eq mb ma)
      with (Pos.compare_cont (CompOpp Eq) mb ma);
    rewrite <- (Pos.compare_cont_antisym ma mb Eq);
    now rewrite ?CompOpp_involutive.
Qed.

Lemma float64_le_not_gt (t thr : float64) :
  float64_le t thr = true -> float64_gt t thr = false.
Proof.
  unfold float64_le, float64_gt, SFleb, SFltb.
  rewrite (SFcompare_antisym t thr).
  destruct (SFcompare t thr) as [[] |]; cbn; congruence.
Qed.

(** ** The temperature monitor tick *)

Lemma checkTemperature_flag s t :
  fst (getTemperature rt s) = inr t ->
  HM.TemperatureExceeded (hm (snd (checkTemperature rt s)))
  = float64_gt t (TemperatureThreshold (HM.Config (hm s))).
Proof.
  intros Ht. unfold checkTemperature, bind.
  pose proof (getTemperature_frame s) as F.
  destruct (getTemperature rt s) as [r s1]. cbn in Ht, F. subst r.
  cbn. rewrite (frame_Config _ _ F).
  destruct (float64_gt _ _); reflexivity.
Qed.

Lemma checkTemperature_Config s :
  HM.Config (hm (snd (checkTemperature rt s))) = HM.Config (hm s).
Proof.
  unfold checkTemperature, bind.
  pose proof (getTemperature_frame s) as F.
  destruct (getTemperature rt s) as [[err | t] s1]; cbn in F |- *.
  - apply (frame_Config _ _ F).
  - destruct (float64_gt _ _); cbn; apply (frame_Config _ _ F).
Qed.

(** C5: with a reading [t], one tick sets the flag to true when [t] is
    above the threshold and to false when [t] is at most the threshold;
    a second tick with the same reading leaves the flag as the first
    set it. *)
Theorem C5_checkTemperature_sets_flag s t :
  fst (getTemperature rt s) = inr t ->
  let threshold := TemperatureThreshold (HM.Config (hm s)) in
  let s' := snd (checkTemperature rt s) in
  (float64_gt t threshold = true -> HM.TemperatureExceeded (hm s') = true) /\
  (float64_le t threshold = true -> HM.TemperatureExceeded (hm s') = false) /\
  (fst (getTemperature rt s') = inr t ->
   HM.TemperatureExceeded (hm (snd (checkTemperature rt s')))
   = HM.TemperatureExceeded (hm s')).
Proof.
  intros Ht threshold s'. subst s'.
  rewrite (checkTemperature_flag s t Ht). fold threshold.
  repeat split.
  - auto.
  - apply float64_le_not_gt.
  - intros Ht'. rewrite (checkTemperature_flag _ t Ht').
    now rewrite checkTemperature_Config.
Qed.

(** C8: a tick whose temperature read returns an error leaves the flag
    as it was; after the read, the tick only writes the log line. *)
Theorem C8_checkTemperature_error s err :
  fst (getTemperature rt s) = inl err ->
  HM.TemperatureExceeded (hm (snd (checkTemperature rt s)))
  = HM.TemperatureExceeded (hm s) /\
  snd (checkTemperature rt s)
  = snd (emit (LogFailedToGetTemperature err) (snd (getTemperature rt s))).
Proof.
  intros He. unfold checkTemperature, bind.
  pose proof (getTemperature_frame s) as F.
  destruct (getTemperature rt s) as [r s1]. cbn in He, F. subst r.
  split; [| reflexivity].
  cbn. apply (frame_TemperatureExceeded _ _ F).
Qed.

(** ** The token manager *)

Lemma getAuthToken_login s :
  HM.Token (hm s) = "" -> getAuthToken rt s = login rt s.
Proof.
  intros H. unfold getAuthToken, bind, getHM. rewrite H. reflexivity.
Qed.

Lemma getAuthToken_refresh s :
  HM.Token (hm s) <> "" -> HM.TokenExpiry (hm s) < clock (world s) ->
  getAuthToken rt s = refreshToken rt s.
Proof.
  intros Hne Hlt. unfold getAuthToken, bind, getHM, Now.
  destruct (String.eqb_spec (HM.Token (hm s)) "") as [? | _]; [contradiction |].
  unfold time.After. replace (_ <? _) with true by lia. reflexivity.
Qed.

Lemma getAuthToken_reuse s :
  HM.Token (hm s) <> "" -> clock (world s) <= HM.TokenExpiry (hm s) ->
  getAuthToken rt s = (None, s).
Proof.
  intros Hne Hle. unfold getAuthToken, bind, getHM, Now.
  destruct (String.eqb_spec (HM.Token (hm s)) "") as [? | _]; [contradiction |].
  unfold time.After. replace (_ <? _) with false by lia. reflexivity.
Qed.

(** C6, amended: without a token [getAuthToken] is a login; with a token
    and the clock strictly after the expiry it is a refresh; with a token
    and the clock at or before the expiry it returns nil, sends nothing
    and changes nothing. *)
Theorem C6_getAuthToken_decision s :
  (HM.Token (hm s) = "" -> getAuthToken rt s = login rt s) /\
  (HM.Token (hm s) <> "" -> HM.TokenExpiry (hm s) < clock (world s) ->
   getAuthToken rt s = refreshToken rt s) /\
  (HM.Token (hm s) <> "" -> clock (world s) <= HM.TokenExpiry (hm s) ->
   getAuthToken rt s = (None, s)).
Proof.
  split; [apply getAuthToken_login |].
  split; [apply getAuthToken_refresh | apply getAuthToken_reuse].
Qed.

(** C9: a login or a refresh that returns an error leaves the token and
    its expiry as they were. *)
Theorem C9_failed_authentication_keeps_session s :
  (forall err, fst (login rt s) = Some err ->
     HM.Token (hm (snd (login rt s))) = HM.Token (hm s) /\
     HM.TokenExpiry (hm (snd (login rt s))) = HM.TokenExpiry (hm s)) /\
  (forall err, fst (refreshToken rt s) = Some err ->
     HM.Token (hm (snd (refreshToken rt s))) = HM.Token (hm s) /\
     HM.TokenExpiry (hm (snd (refreshToken rt s))) = HM.TokenExpiry (hm s)).
Proof.
  split; intros err H.
  - now rewrite (login_error s err H).
  - now rewrite (refreshToken_error s err H).
Qed.

(** ** The requests a method sends *)

Lemma commands_app mode l1 l2 :
  commands mode (l1 ++ l2)%list = (commands mode l1 + commands mode l2)%nat.
Proof. unfold commands. now rewrite List.filter_app, List.length_app. Qed.

Lemma commands_POST mode l :
  Forall (fun r => Method r = "POST") l -> commands mode l = 0%nat.
Proof.
  unfold commands. induction 1 as [| r l Hr _ IH]; [reflexivity |].
  cbn. unfold isCommand at 1. rewrite Hr. cbn. exact IH.
Qed.

Lemma login_sent s :
  exists l, sentBetween s (snd (login rt s)) l /\
            Forall (fun r => Method r = "POST") l.
Proof.
  unfold sentBetween, login. run. split_cases; cbn;
    first [ exists []; split; [now rewrite app_nil_r | constructor]
          | eexists [_]; split; [reflexivity | repeat constructor] ].
Qed.

Lemma refreshToken_sent s :
  exists l, sentBetween s (snd (refreshToken rt s)) l /\
            Forall (fun r => Method r = "POST") l.
Proof.
  unfold sentBetween, refreshToken. run. split_cases; cbn;
    first [ exists []; split; [now rewrite app_nil_r | constructor]
          | eexists [_]; split; [reflexivity | repeat constructor] ].
Qed.

Lemma getAuthToken_sent s :
  exists l, sentBetween s (snd (getAuthToken rt s)) l /\
            Forall (fun r => Method r = "POST") l.
Proof.
  unfold getAuthToken, bind, getHM, Now, ret.
  destruct (String.eqb _ _); [apply login_sent |].
  destruct (time.After _ _); [apply refreshToken_sent |].
  exists []. split; [unfold sentBetween; now rewrite app_nil_r | constructor].
Qed.

Lemma makeHeatingControlRequest_sent url mode s :
  sentBetween s (snd (makeHeatingControlRequest rt url (chargingMode mode) s))
    (match checkURL rt url with
     | None => [controlRequest url (HM.Token (hm s)) mode]
     | Some _ => []
     end).
Proof.
  unfold sentBetween, makeHeatingControlRequest, controlRequest, addHeader.
  run. split_cases; cbn; try reflexivity; now rewrite app_nil_r.
Qed.

(** The result of a control request: success exactly on a response with
    status 200 or 204. *)
Lemma makeHeatingControlRequest_result url body s :
  checkURL rt url = None ->
  fst (makeHeatingControlRequest rt url body s) = None <->
  exists x rest resp,
    network (world s) = x :: rest /\ reply x = inr resp /\
    (StatusCode resp = StatusOK \/ StatusCode resp = StatusNoContent).
Proof.
  intros Hurl. unfold makeHeatingControlRequest, NewRequest. rewrite Hurl.
  unfold bind, getHM, Do.
  destruct (network (world s)) as [| x rest] eqn:Hn; cbn.
  - split; [discriminate | intros (? & ? & ? & ? & _); discriminate].
  - destruct (reply x) as [err | resp] eqn:Hr; cbn.
    + split; [discriminate |].
      intros (x' & rest' & resp' & Hx & Hr' & _). congruence.
    + destruct (Z.eqb_spec (StatusCode resp) StatusOK) as [H200 | H200]; cbn.
      * split; [| reflexivity]. intros _. exists x, rest, resp. auto.
      * destruct (Z.eqb_spec (StatusCode resp) StatusNoContent) as [H204 | H204]; cbn.
        -- split; [| reflexivity]. intros _. exists x, rest, resp. auto.
        -- split; [discriminate |].
           intros (x' & rest' & resp' & Hx & Hr' & Hs).
           assert (resp' = resp) by congruence. subst resp'. tauto.
Qed.

Section Actuator.

Variable mode : Z.

Lemma turnHeating_sent s :
  exists l,
    sentBetween s (snd (getAuthToken rt s)) l /\
    Forall (fun r => Method r = "POST") l /\
    sentBetween s (snd (turnHeatingWith rt controlURL mode s))
      (l ++
       match fst (getAuthToken rt s) with
       | Some _ => []
       | None =>
           let s1 := snd (getAuthToken rt s) in
           let url := controlURL (HM.Config (hm s1)) in
           match checkURL rt url with
           | None => [controlRequest url (HM.Token (hm s1)) mode]
           | Some _ => []
           end
       end).
Proof.
  destruct (getAuthToken_sent s) as (l & Hl & HP).
  exists l. split; [exact Hl |]. split; [exact HP |].
  unfold turnHeatingWith, bind. unfold sentBetween in *.
  destruct (getAuthToken rt s) as [[err |] s1]; cbn in *.
  - now rewrite app_nil_r.
  - pose proof (makeHeatingControlRequest_sent
                  (controlURL (HM.Config (hm s1))) mode s1) as H.
    unfold sentBetween in H. rewrite H, Hl. now rewrite app_assoc.
Qed.

Lemma controlRequest_isCommand url token m :
  isCommand m (controlRequest url token mode) = bool_decide (mode = m).
Proof.
  unfold isCommand, controlRequest, chargingMode. cbn.
  destruct (decide (mode = m)) as [-> | Hne].
  - now rewrite !bool_decide_eq_true_2.
  - rewrite !bool_decide_eq_false_2; [reflexivity | assumption |].
    intros H. apply Hne. congruence.
Qed.

(** One run sends at most one command, of its own mode. *)
Lemma turnHeating_commands m s :
  commands m (sent (world (snd (turnHeatingWith rt controlURL mode s))))
  = (commands m (sent (world s))
     + match fst (getAuthToken rt s),
             checkURL rt (controlURL (HM.Config (hm (snd (getAuthToken rt s)))))
       with
       | None, None => if bool_decide (mode = m) then 1 else 0
       | _, _ => 0
       end)%nat.
Proof.
  destruct (turnHeating_sent s) as (l & _ & HP & H).
  unfold sentBetween in H. rewrite H, !commands_app, (commands_POST m l HP).
  cbn [Nat.add]. f_equal.
  destruct (fst (getAuthToken rt s)); [reflexivity |].
  cbv zeta. destruct (checkURL rt _); [reflexivity |].
  unfold commands. cbn [List.filter]. rewrite controlRequest_isCommand.
  destruct (bool_decide (mode = m)); reflexivity.
Qed.

End Actuator.

Lemma turnHeatingOn_commands m s :
  commands m (sent (world (snd (turnHeatingOn rt controlURL s))))
  = (commands m (sent (world s))
     + match fst (getAuthToken rt s),
             checkURL rt (controlURL (HM.Config (hm (snd (getAuthToken rt s)))))
       with
       | None, None => if bool_decide (1 = m)%Z then 1 else 0
       | _, _ => 0
       end)%nat.
Proof. exact (turnHeating_commands 1 m s). Qed.

Lemma turnHeatingOff_commands m s :
  commands m (sent (world (snd (turnHeatingOff rt controlURL s))))
  = (commands m (sent (world s))
     + match fst (getAuthToken rt s),
             checkURL rt (controlURL (HM.Config (hm (snd (getAuthToken rt s)))))
       with
       | None, None => if bool_decide (2 = m)%Z then 1 else 0
       | _, _ => 0
       end)%nat.
Proof. exact (turnHeating_commands 2 m s). Qed.

(** ** The weekly check *)

(** The state in which [saveLastCheckTime] leaves the file system: the
    time is in the file when the write succeeds; a failed write is
    logged, and leaves the file as it was or with the part written. *)
Lemma saveLastCheckTime_files s :
  let f := HM.LastCheckFile (hm s) in
  let stamp := time.Format (zone (world s)) (clock (world s)) in
  let s' := snd (saveLastCheckTime s) in
  files (world s')
  = (if decide (f ∈ denied (world s)) then
       match torn (world s) !! f with
       | None => files (world s)
       | Some n => <[f := String.substring 0 n stamp]> (files (world s))
       end
     else <[f := stamp]> (files (world s)))
  /\ output (world s')
     = (if decide (f ∈ denied (world s))
        then output (world s)
             ++ [LogFailedToSaveLastCheckTime
                   match torn (world s) !! f with
                   | None => "open " +:+ f +:+ ": permission denied"
                   | Some _ => "write " +:+ f +:+ ": input/output error"
                   end]
        else output (world s))%list.
Proof.
  unfold saveLastCheckTime. run. destruct s as [h w]. cbn.
  destruct (decide _); cbn; [destruct (torn w !! _) |]; cbn; split; reflexivity.
Qed.

(** Everything else is as before. *)
Lemma saveLastCheckTime_rest s :
  let s' := snd (saveLastCheckTime s) in
  hm s' = hm s /\ clock (world s') = clock (world s) /\
  zone (world s') = zone (world s) /\ network (world s') = network (world s) /\
  sent (world s') = sent (world s) /\ denied (world s') = denied (world s) /\
  timers (world s') = timers (world s).
Proof.
  unfold saveLastCheckTime. run. destruct s as [h w]. cbn.
  destruct (decide _); cbn; [destruct (torn w !! _) |]; cbn;
    repeat split; reflexivity.
Qed.

Lemma weeklyCheck_eq s :
  weeklyCheck rt controlURL s
  = saveLastCheckTime (snd (setTemperatureExceeded false (afterActuation rt controlURL s))).
Proof.
  unfold weeklyCheck, afterActuation, bind, getHM.
  destruct (HM.TemperatureExceeded (hm s)); cbn [negb].
  - reflexivity.
  - destruct (turnHeatingOn rt controlURL s) as [[e |] s1]; reflexivity.
Qed.

Lemma afterActuation_frame s :
  HM.Config (hm (afterActuation rt controlURL s)) = HM.Config (hm s) /\
  HM.LastCheckFile (hm (afterActuation rt controlURL s)) = HM.LastCheckFile (hm s) /\
  zone (world (afterActuation rt controlURL s)) = zone (world s) /\
  files (world (afterActuation rt controlURL s)) = files (world s) /\
  denied (world (afterActuation rt controlURL s)) = denied (world s).
Proof.
  unfold afterActuation.
  destruct (HM.TemperatureExceeded (hm s)); [repeat split; reflexivity |].
  pose proof (turnHeatingOn_frame s) as F.
  destruct (turnHeatingOn rt controlURL s) as [[e |] s1]; cbn in F |- *;
    destruct F; repeat split; assumption.
Qed.

(** C1, amended: after a weekly check the flag is false and the save of
    the fire time has been attempted, whatever the actuation did: the
    checkpoint file holds that time whenever the write succeeds, and
    otherwise the failed write is the last line of the log. *)
Theorem C1_weeklyCheck_clears_and_saves s :
  let s' := snd (weeklyCheck rt controlURL s) in
  let f := HM.LastCheckFile (hm s) in
  let stamp := time.Format (zone (world s')) (clock (world s')) in
  HM.TemperatureExceeded (hm s') = false /\
  (f ∉ denied (world s) -> files (world s') !! f = Some stamp) /\
  (files (world s') !! f = Some stamp \/
   exists lines e,
     output (world s') = (lines ++ [LogFailedToSaveLastCheckTime e])%list).
Proof.
  cbv zeta. rewrite weeklyCheck_eq.
  set (s2 := snd (setTemperatureExceeded false (afterActuation rt controlURL s))).
  destruct (afterActuation_frame s) as (_ & Hf & Hz & Hfs & Hd).
  assert (H2 : HM.LastCheckFile (hm s2) = HM.LastCheckFile (hm s)
               /\ denied (world s2) = denied (world s)
               /\ HM.TemperatureExceeded (hm s2) = false)
    by (subst s2; cbn; auto).
  destruct H2 as (Hf2 & Hd2 & Hflag).
  destruct (saveLastCheckTime_rest s2) as (Hhm & Hclock & Hzone & _).
  destruct (saveLastCheckTime_files s2) as (Hfiles & Hout).
  cbv zeta in *. rewrite Hhm, Hclock, Hzone, Hfiles, Hout, Hf2, Hd2.
  split; [exact Hflag |].
  destruct (decide (HM.LastCheckFile (hm s) ∈ denied (world s))) as [Hden | Hden].
  - split; [contradiction | right; eauto].
  - split; [intros _ | left]; apply lookup_insert_eq.
Qed.

(** C2: a weekly check that finds the flag set sends nothing and arms no
    timer; it only clears the flag and saves the checkpoint. *)
Theorem C2_weeklyCheck_skips_actuation s :
  HM.TemperatureExceeded (hm s) = true ->
  let s' := snd (weeklyCheck rt controlURL s) in
  sent (world s') = sent (world s) /\
  commands 1 (sent (world s')) = commands 1 (sent (world s)) /\
  network (world s') = network (world s) /\
  timers (world s') = timers (world s) /\
  s' = snd (saveLastCheckTime (snd (setTemperatureExceeded false s))).
Proof.
  intros Hflag. cbv zeta. rewrite weeklyCheck_eq.
  unfold afterActuation. rewrite Hflag.
  destruct (saveLastCheckTime_rest (snd (setTemperatureExceeded false s)))
    as (_ & _ & _ & Hnet & Hsent & _ & Htimers).
  cbv zeta in *. rewrite Hsent, Hnet, Htimers. repeat split; reflexivity.
Qed.

(** What the callback of the timer does when it fires: it runs
    [turnHeatingOff] once and logs its failure.  At most one off command
    goes out, and no on command. *)
Lemma runClosure_eq s :
  let off := turnHeatingOff rt controlURL s in
  runClosure rt controlURL turnHeatingOffLater s
  = match fst off with
    | Some e => emit (LogFailedToTurnOffHeating e) (snd off)
    | None => (tt, snd off)
    end.
Proof.
  cbv zeta. unfold runClosure, bind.
  destruct (turnHeatingOff rt controlURL s) as [[e |] s1]; reflexivity.
Qed.

Lemma runClosure_commands s :
  let s' := snd (runClosure rt controlURL turnHeatingOffLater s) in
  commands 1 (sent (world s')) = commands 1 (sent (world s)) /\
  commands 2 (sent (world s'))
  = (commands 2 (sent (world s))
     + match fst (getAuthToken rt s),
             checkURL rt (controlURL (HM.Config (hm (snd (getAuthToken rt s)))))
       with
       | None, None => 1
       | _, _ => 0
       end)%nat.
Proof.
  cbv zeta.
  assert (Hs : sent (world (snd (runClosure rt controlURL turnHeatingOffLater s)))
               = sent (world (snd (turnHeatingOff rt controlURL s)))).
  { unfold runClosure, bind.
    destruct (turnHeatingOff rt controlURL s) as [[e |] s1]; reflexivity. }
  rewrite Hs, !turnHeatingOff_commands.
  destruct (fst (getAuthToken rt s)); [cbn; lia |].
  destruct (checkURL rt _); [cbn; lia |].
  rewrite (bool_decide_eq_false_2 (2 = 1)) by discriminate.
  rewrite (bool_decide_eq_true_2 (2 = 2)) by reflexivity. lia.
Qed.

(** C3, amended: a weekly check that finds the flag clear runs
    [turnHeatingOn] once: its on command goes out exactly once when the
    token and the request are obtained and not at all otherwise, and its
    failure is logged.  Whatever [turnHeatingOn] returned, the check
    sends no off command itself and arms exactly one timer, of four
    hours, whose callback runs [turnHeatingOff] once when it fires: one
    off command under the same condition, none otherwise, and never an
    on command. *)
Theorem C3_weeklyCheck_actuates_once s :
  HM.TemperatureExceeded (hm s) = false ->
  let s' := snd (weeklyCheck rt controlURL s) in
  let on := turnHeatingOn rt controlURL s in
  let timer := mkTimer (clock (world (snd on))) (4 * time.Hour) turnHeatingOffLater in
  sent (world s') = sent (world (snd on)) /\
  commands 1 (sent (world s'))
  = (commands 1 (sent (world s))
     + match fst (getAuthToken rt s),
             checkURL rt (controlURL (HM.Config (hm (snd (getAuthToken rt s)))))
       with
       | None, None => 1
       | _, _ => 0
       end)%nat /\
  commands 2 (sent (world s')) = commands 2 (sent (world s)) /\
  (forall e, fst on = Some e -> In (LogFailedToTurnOnHeating e) (output (world s'))) /\
  timers (world s') = (timers (world s) ++ [timer])%list /\
  delay timer = 14400 * time.Second /\
  (forall fire : State,
     let off := turnHeatingOff rt controlURL fire in
     let s3 := snd (runClosure rt controlURL (callback timer) fire) in
     sent (world s3) = sent (world (snd off)) /\
     commands 2 (sent (world s3))
     = (commands 2 (sent (world fire))
        + match fst (getAuthToken rt fire),
                checkURL rt (controlURL (HM.Config (hm (snd (getAuthToken rt fire)))))
          with
          | None, None => 1
          | _, _ => 0
          end)%nat /\
     commands 1 (sent (world s3)) = commands 1 (sent (world fire)) /\
     (forall e, fst off = Some e ->
        output (world s3)
        = (output (world (snd off)) ++ [LogFailedToTurnOffHeating e])%list)).
Proof.
  intros Hflag. cbv zeta. rewrite weeklyCheck_eq.
  set (s2 := snd (setTemperatureExceeded false (afterActuation rt controlURL s))).
  destruct (saveLastCheckTime_rest s2) as (_ & _ & _ & _ & Hsent & _ & Htimers).
  destruct (saveLastCheckTime_files s2) as (_ & Hout).
  cbv zeta in *. rewrite Hsent, Htimers. clear Hsent Htimers.
  assert (Hs : sent (world (afterActuation rt controlURL s))
               = sent (world (snd (turnHeatingOn rt controlURL s)))
             /\ timers (world (afterActuation rt controlURL s))
                = (timers (world s)
                   ++ [mkTimer (clock (world (snd (turnHeatingOn rt controlURL s))))
                               (4 * time.Hour) turnHeatingOffLater])%list
             /\ (forall e, fst (turnHeatingOn rt controlURL s) = Some e ->
                   In (LogFailedToTurnOnHeating e)
                      (output (world (afterActuation rt controlURL s))))).
  { unfold afterActuation. rewrite Hflag.
    pose proof (turnHeatingOn_frame s) as F.
    destruct (turnHeatingOn rt controlURL s) as [[e |] s1]; cbn in F |- *;
      rewrite (frame_timers _ _ F); (split; [reflexivity |]);
      (split; [reflexivity |]); intros e' He'; [| discriminate].
    injection He' as <-. apply in_or_app. right. now left. }
  destruct Hs as (Hs & Ht & Hlog).
  subst s2. cbn [setTemperatureExceeded snd world hm] in *.
  rewrite Hs, Ht.
  split; [reflexivity |].
  split; [rewrite turnHeatingOn_commands; reflexivity |].
  split.
  { rewrite turnHeatingOn_commands.
    destruct (fst (getAuthToken rt s)); [cbn; lia |].
    destruct (checkURL rt _); [cbn; lia |].
    rewrite bool_decide_eq_false_2 by discriminate. lia. }
  split.
  { intros e He. rewrite Hout.
    destruct (decide _); [apply in_or_app; left |]; now apply Hlog. }
  split; [reflexivity |]. split; [reflexivity |].
  intros fire. cbn [callback].
  destruct (runClosure_commands fire) as [H1 H2]. cbv zeta in H1, H2.
  pose proof (runClosure_eq fire) as Heq. cbv zeta in Heq.
  split; [| split; [exact H2 | split; [exact H1 |]]].
  - rewrite Heq. destruct (fst (turnHeatingOff rt controlURL fire)); reflexivity.
  - intros e He. rewrite Heq, He. reflexivity.
Qed.

(** ** The checkpoint and the delay to the next weekly check *)

Lemma readLastCheckTime_state s : snd (readLastCheckTime s) = s.
Proof.
  unfold readLastCheckTime. run. destruct s as [h w]. cbn.
  split_cases; reflexivity.
Qed.

(** What [nextWeeklyCheckDuration] computes, overflow included: the
    interval in nanoseconds wraps around in 64 bits, the difference
    saturates, and it is taken from the clock as [time.Until] reads it,
    after the comparison. *)
Lemma nextWeeklyCheckDuration_eq s :
  nextWeeklyCheckDuration s
  = match loadCheckpoint s with
    | None => (0, s)
    | Some lastCheck =>
        let nextCheck :=
          lastCheck
          + Int64.wrap64 (WeeklyCheckInterval (HM.Config (hm s)) * time.Hour) in
        if nextCheck <? clock (world s) then (0, s)
        else (time.Sub nextCheck (clock (world s) + lag (world s)),
              snd (elapse s))
    end.
Proof.
  unfold nextWeeklyCheckDuration, loadCheckpoint, bind.
  pose proof (readLastCheckTime_state s) as Hs.
  destruct (readLastCheckTime s) as [[err | lastCheck] s1]; cbn in Hs |- *;
    subst s1; [reflexivity |].
  unfold getHM, Now, time.After, time.Add, Int64.mul, ret.
  destruct (_ <? _); reflexivity.
Qed.

Lemma onlyClockMoves_refl s : onlyClockMoves s s.
Proof. repeat split. Qed.

Lemma elapse_onlyClockMoves s : onlyClockMoves s (snd (elapse s)).
Proof. repeat split. Qed.

Lemma nextWeeklyCheckDuration_state s :
  onlyClockMoves s (snd (nextWeeklyCheckDuration s)).
Proof.
  rewrite nextWeeklyCheckDuration_eq.
  destruct (loadCheckpoint s); [| apply onlyClockMoves_refl].
  cbv zeta. destruct (_ <? _);
    [apply onlyClockMoves_refl | apply elapse_onlyClockMoves].
Qed.

Lemma readLastCheckTime_eq s :
  let f := HM.LastCheckFile (hm s) in
  fst (readLastCheckTime s)
  = if decide (f ∈ denied (world s))
    then inl ("failed to read last check time: "
              +:+ ("open " +:+ f +:+ ": permission denied"))
    else match files (world s) !! f with
         | None => inl ("failed to read last check time: "
                        +:+ ("open " +:+ f +:+ ": no such file or directory"))
         | Some data =>
             match time.Parse data with
             | None => inl "failed to parse last check time: cannot parse"
             | Some lastCheck => inr lastCheck
             end
         end.
Proof.
  cbv zeta. destruct s as [h w].
  unfold readLastCheckTime, bind, getHM, ReadFile, ret. cbn [hm world].
  destruct (decide _); [reflexivity |].
  destruct (files w !! _); [| reflexivity].
  destruct (time.Parse _); reflexivity.
Qed.

(** The three ways in which loading the checkpoint fails. *)
Lemma loadCheckpoint_None s :
  let f := HM.LastCheckFile (hm s) in
  loadCheckpoint s = None <->
  f ∈ denied (world s) \/ files (world s) !! f = None \/
  exists data, files (world s) !! f = Some data /\ time.Parse data = None.
Proof.
  cbv zeta. unfold loadCheckpoint.
  pose proof (readLastCheckTime_eq s) as H. cbv zeta in H. rewrite H.
  destruct (decide _) as [Hd | Hd]; [tauto |].
  destruct (files (world s) !! _) as [data |] eqn:Hf; [| tauto].
  destruct (time.Parse data) eqn:Hp.
  - split; [discriminate |].
    intros [? | [? | (d & Hd' & Hp')]]; try contradiction; try discriminate.
    congruence.
  - split; [| reflexivity]. intros _. right. right. eauto.
Qed.

(** C4, amended: computing the delay changes nothing, though time
    passes; the delay is 0 when the checkpoint cannot be loaded;
    otherwise, provided the interval in nanoseconds fits an int64 and
    the time to wait fits a Duration, it is 0 when the clock at the
    comparison is after the due time, and the due time minus the clock
    that [time.Until] reads, later, when it is not.  When both reads
    give the same instant this is the function [computeNextDelay] of
    that instant, the checkpoint and the configured interval. *)
Theorem C4_nextWeeklyCheckDuration_spec s :
  let now := clock (world s) in
  let later := now + lag (world s) in
  let interval := WeeklyCheckInterval (HM.Config (hm s)) in
  onlyClockMoves s (snd (nextWeeklyCheckDuration s)) /\
  (loadCheckpoint s = None -> fst (nextWeeklyCheckDuration s) = 0) /\
  (forall lastCheck,
     loadCheckpoint s = Some lastCheck ->
     Int64.in_range (interval * time.Hour) ->
     let nextDue := lastCheck + interval * time.Hour in
     time.minDuration <= nextDue - later <= time.maxDuration ->
     fst (nextWeeklyCheckDuration s)
     = (if nextDue <? now then 0 else nextDue - later) /\
     (lag (world s) = 0 ->
      fst (nextWeeklyCheckDuration s)
      = computeNextDelay now (Some lastCheck) interval)).
Proof.
  cbv zeta. split; [apply nextWeeklyCheckDuration_state |].
  rewrite nextWeeklyCheckDuration_eq. split.
  - intros ->. reflexivity.
  - intros lastCheck -> Hr Hrange. cbv zeta.
    rewrite wrap64_id by assumption. unfold computeNextDelay.
    set (nextDue := lastCheck + WeeklyCheckInterval (HM.Config (hm s)) * time.Hour) in *.
    clearbody nextDue.
    unfold time.Sub, time.minDuration, time.maxDuration,
      Int64.min, Int64.max in *.
    destruct (Z.ltb_spec nextDue (clock (world s))); cbn [fst].
    + split; [reflexivity |]. intros _.
      destruct (Z.leb_spec nextDue (clock (world s))); [reflexivity | lia].
    + destruct (Z.ltb_spec (nextDue - (clock (world s) + lag (world s))) (- 2 ^ 63));
        [lia |].
      destruct (Z.ltb_spec (2 ^ 63 - 1) (nextDue - (clock (world s) + lag (world s))));
        [lia |].
      split; [reflexivity |]. intros Hlag.
      destruct (Z.leb_spec nextDue (clock (world s))); lia.
Qed.

(** Reading back what [saveLastCheckTime] wrote. *)
Lemma read_after_save s :
  HM.LastCheckFile (hm s) ∉ denied (world s) ->
  fst (readLastCheckTime (snd (saveLastCheckTime s)))
  = match time.Parse (time.Format (zone (world s)) (clock (world s))) with
    | None => inl "failed to parse last check time: cannot parse"
    | Some lastCheck => inr lastCheck
    end.
Proof.
  intros Hd. rewrite readLastCheckTime_eq. cbv zeta.
  destruct (saveLastCheckTime_rest s) as (Hhm & _ & _ & _ & _ & Hden & _).
  destruct (saveLastCheckTime_files s) as (Hfiles & _).
  cbv zeta in *. rewrite Hhm, Hden, Hfiles.
  rewrite !decide_False by assumption.
  now rewrite lookup_insert_eq.
Qed.

(** C10, amended: when the write succeeds, the local year of the clock
    has four digits and the local zone is a whole number of minutes from
    UTC, less than a day, reading the checkpoint back gives the time
    saved with its sub-second part dropped. *)
Theorem C10_checkpoint_round_trip s :
  HM.LastCheckFile (hm s) ∉ denied (world s) ->
  time.fourDigitYear (zone (world s)) (clock (world s)) ->
  zone (world s) mod 60 = 0 -> -86400 < zone (world s) < 86400 ->
  fst (readLastCheckTime (snd (saveLastCheckTime s)))
  = inr (time.truncSecond (clock (world s))).
Proof.
  intros Hd Hy Hm Hz. rewrite read_after_save by assumption.
  now rewrite Parse_Format.
Qed.

(** ** The heating actuator *)

Section ActuatorOutcome.

Variable mode : Z.

(** With a token and a well-formed URL, a heating command sends exactly
    the control request for the URL expression of its version, and it
    succeeds exactly when a response with status 200 or 204 comes back. *)
Lemma turnHeating_outcome s s1 :
  getAuthToken rt s = (None, s1) ->
  let url := controlURL (HM.Config (hm s1)) in
  checkURL rt url = None ->
  sent (world (snd (turnHeatingWith rt controlURL mode s)))
  = (sent (world s1) ++ [controlRequest url (HM.Token (hm s1)) mode])%list /\
  (fst (turnHeatingWith rt controlURL mode s) = None <->
   exists x rest resp,
     network (world s1) = x :: rest /\ reply x = inr resp /\
     (StatusCode resp = StatusOK \/ StatusCode resp = StatusNoContent)).
Proof.
  intros Ha url Hurl. unfold turnHeatingWith, bind. rewrite Ha.
  cbn [getHM fst snd]. fold url. split.
  - pose proof (makeHeatingControlRequest_sent url mode s1) as H.
    unfold sentBetween in H. now rewrite Hurl in H.
  - now apply makeHeatingControlRequest_result.
Qed.



End ActuatorOutcome.

End ProgramFacts.

(** The copy of [turnHeatingOn] and [turnHeatingOff] in
    heating_control.go sends its command to the configured URL template
    filled with the configured device, with charging mode 1 for on and 2
    for off. *)
Lemma heating_control_go_request rt mode s s1 :
  getAuthToken rt s = (None, s1) ->
  let url := Sprintf rt (HeatPumpControlURL (HM.Config (hm s1)))
                     (HeatPumpID (HM.Config (hm s1))) in
  checkURL rt url = None ->
  sent (world (snd (turnHeatingWith rt (controlURL_heating_control rt) mode s)))
  = (sent (world s1)
     ++ [mkRequest "PUT" url
           [("Authorization", "Bearer " +:+ HM.Token (hm s1));
            ("Content-Type", "application/json")]
           (Some [("heatPumpChargingMode", JNumber mode)])])%list.
Proof.
  intros Ha url Hurl.
  exact (proj1 (turnHeating_outcome rt (controlURL_heating_control rt) mode s s1 Ha Hurl)).
Qed.


(** The copy of the two commands in heating_manager.go, whose [Config]
    has neither a template nor a device, formats a literal: its request
    goes to the URL that ends in xxx.  The copy in heating_control.go,
    run on the same state, sends it to the configured device. *)
Example heating_manager_go_fixed_url :
  let s := mkState (loggedIn false) (sampleWorld sampleNoon [ok 200 "done"] ∅) in
  let s' := snd (turnHeatingOn sampleRuntime controlURL_heating_manager s) in
  map URL (sent (world s'))
  = ["https://cloud.solar-manager.ch/v1/control/heat-pump/xxx"] /\
  controlURL_heating_control sampleRuntime (HM.Config (hm s))
  = "https://pump.example/v1/control/heat-pump/42" /\
  map URL (sent (world (snd (turnHeatingOn sampleRuntime
                               (controlURL_heating_control sampleRuntime) s))))
  = ["https://pump.example/v1/control/heat-pump/42"].
Proof. vm_compute. repeat split; reflexivity. Qed.

(** *** The scenarios of the specification *)

(** Threshold 55, reading 60: the flag is set and the line printed says
    that the threshold was exceeded. *)
Example scenario_reading_above_threshold :
  let s := mkState (NewHeatingManager sampleConfig)
             (sampleWorld sampleNoon [ok 200 "tok1"; ok 200 "60"] ∅) in
  let s' := snd (checkTemperature sampleRuntime s) in
  HM.TemperatureExceeded (hm s') = true /\
  output (world s') = [PrintTemperatureExceeded (float64_of_Z 55)].
Proof. vm_compute. split; reflexivity. Qed.

(** No checkpoint file at startup, interval 168 hours: the first weekly
    check is due at once. *)
Example scenario_no_checkpoint :
  fst (nextWeeklyCheckDuration
         (mkState (NewHeatingManager sampleConfig)
                  (sampleWorld sampleNoon [] ∅))) = 0.
Proof. reflexivity. Qed.

(** A login answered with expiresIn = 3600: a call 3601 seconds later
    refreshes the token before going on. *)
Example scenario_refresh_after_expiry :
  let s := mkState (NewHeatingManager sampleConfig)
             (sampleWorld sampleNoon
                [mkExchange 0 (inr (mkResponse 200 "tok1"));
                 mkExchange (3601 * time.Second) (inr (mkResponse 200 "60"));
                 ok 200 "tok2"; ok 200 "61"] ∅) in
  let s1 := snd (getTemperature sampleRuntime s) in
  let s2 := snd (getTemperature sampleRuntime s1) in
  HM.TokenExpiry (hm s1) = sampleNoon + 3600 * time.Second /\
  map URL (sent (world s2))
  = ["https://cloud.solar-manager.ch/v1/oauth/login";
     "https://cloud.solar-manager.ch/v1/stream/sensor/site/sensor1";
     "https://cloud.solar-manager.ch/v1/oauth/refresh";
     "https://cloud.solar-manager.ch/v1/stream/sensor/site/sensor1"] /\
  HM.Token (hm s2) = "tok2".
Proof. vm_compute. repeat split; reflexivity. Qed.

(** *** Witnesses and counterexamples *)

(** C1 as stated fails when the checkpoint file cannot be written. *)
Lemma C1_counterexample :
  ~ (forall rt controlURL s,
       let s' := snd (weeklyCheck rt controlURL s) in
       HM.TemperatureExceeded (hm s') = false /\
       files (world s') !! HM.LastCheckFile (hm s)
       = Some (time.Format (zone (world s')) (clock (world s')))).
Proof.
  intros H.
  specialize (H sampleRuntime controlURL_heating_manager
                (mkState (loggedIn true)
                   (mkWorld sampleNoon 0 [] [] ∅ {["lastCheck.txt"]} [] []))).
  destruct H as [_ H]. vm_compute in H. discriminate.
Qed.

(** A write that fails after the file was opened leaves the checkpoint
    empty: the time of the earlier check is lost, and the failure is
    logged. *)
Example failed_write_truncates :
  let w := makeWorld sampleNoon 0 [] [] {["lastCheck.txt" := "2024-06-24T12:00:00Z"]}
             {["lastCheck.txt"]} [] [] {["lastCheck.txt" := 0%nat]} 0 in
  let s' := snd (weeklyCheck sampleRuntime controlURL_heating_manager
                   (mkState (loggedIn true) w)) in
  files (world s') !! "lastCheck.txt" = Some "" /\
  output (world s')
  = [LogFailedToSaveLastCheckTime "write lastCheck.txt: input/output error"].
Proof. vm_compute. split; reflexivity. Qed.

Lemma C1_witness :
  let s := mkState (loggedIn false) (sampleWorld sampleNoon [ok 500 "down"] ∅) in
  let s' := snd (weeklyCheck sampleRuntime controlURL_heating_manager s) in
  ("lastCheck.txt" ∉ denied (world s)) /\
  HM.TemperatureExceeded (hm s') = false /\
  files (world s') !! "lastCheck.txt" = Some "2024-07-01T12:00:02Z".
Proof.
  cbv zeta. split; [apply not_elem_of_empty |].
  pose proof (C1_weeklyCheck_clears_and_saves sampleRuntime
                controlURL_heating_manager
                (mkState (loggedIn false)
                   (sampleWorld sampleNoon [ok 500 "down"] ∅))) as H.
  cbv zeta in H. destruct H as (Hflag & Hok & _).
  split; [exact Hflag |].
  exact (Hok (not_elem_of_empty _)).
Defined.

Lemma C2_witness :
  let s := mkState (loggedIn true) (sampleWorld sampleNoon [ok 200 "done"] ∅) in
  let s' := snd (weeklyCheck sampleRuntime controlURL_heating_manager s) in
  HM.TemperatureExceeded (hm s) = true /\
  sent (world s') = [] /\ timers (world s') = [] /\
  network (world s') = [ok 200 "done"].
Proof.
  cbv zeta. split; [reflexivity |].
  pose proof (C2_weeklyCheck_skips_actuation sampleRuntime
                controlURL_heating_manager
                (mkState (loggedIn true)
                   (sampleWorld sampleNoon [ok 200 "done"] ∅)) eq_refl) as H.
  cbv zeta in H. destruct H as (Hsent & _ & Hnet & Htimers & _).
  repeat split; assumption.
Defined.

(** C3 as stated fails when the token cannot be obtained: the login is
    refused, [turnHeatingOn] returns before its request, and no on
    command goes out. *)
Lemma C3_counterexample :
  ~ (forall rt controlURL s,
       HM.TemperatureExceeded (hm s) = false ->
       let s' := snd (weeklyCheck rt controlURL s) in
       commands 1 (sent (world s')) = S (commands 1 (sent (world s))) /\
       length (timers (world s')) = S (length (timers (world s)))).
Proof.
  intros H.
  specialize (H sampleRuntime (controlURL_heating_control sampleRuntime)
                (mkState (NewHeatingManager sampleConfig)
                   (sampleWorld sampleNoon [ok 401 "denied"] ∅))
                eq_refl).
  destruct H as [H _]. vm_compute in H. discriminate.
Qed.

Lemma C3_witness :
  let s := mkState (loggedIn false) (sampleWorld sampleNoon [ok 500 "down"] ∅) in
  let s' := snd (weeklyCheck sampleRuntime (controlURL_heating_control sampleRuntime) s) in
  let fire := mkState (hm s')
                (sampleWorld (sampleNoon + 4 * time.Hour) [ok 200 "tok2"; ok 204 ""] ∅) in
  HM.TemperatureExceeded (hm s) = false /\
  commands 1 (sent (world s')) = 1%nat /\
  commands 2 (sent (world s')) = 0%nat /\
  In (LogFailedToTurnOnHeating "failed to modify heat pump state, status code: 500")
     (output (world s')) /\
  (exists timer,
     timers (world s') = [timer] /\
     armedAt timer = sampleNoon + 2 * time.Second /\
     delay timer = 14400 * time.Second /\
     commands 2 (sent (world (snd (runClosure sampleRuntime
                                     (controlURL_heating_control sampleRuntime)
                                     (callback timer) fire)))) = 1%nat).
Proof.
  cbv zeta. split; [reflexivity |].
  pose proof (C3_weeklyCheck_actuates_once sampleRuntime
                (controlURL_heating_control sampleRuntime)
                (mkState (loggedIn false)
                   (sampleWorld sampleNoon [ok 500 "down"] ∅)) eq_refl) as H.
  cbv zeta in H. destruct H as (_ & Hon & Hoff & Hlog & Htimers & Hdelay & Hfire).
  split; [exact Hon |]. split; [exact Hoff |].
  split; [exact (Hlog _ eq_refl) |].
  eexists. split; [exact Htimers |]. split; [reflexivity |].
  split; [exact Hdelay |].
  exact (proj1 (proj2 (Hfire _))).
Defined.

(** C4 as stated fails for an interval whose nanoseconds overflow an
    int64: 2562048 hours wrap around to a negative duration, and the
    check is taken to be due. *)
Lemma C4_counterexample :
  ~ (forall s lastCheck,
       loadCheckpoint s = Some lastCheck ->
       fst (nextWeeklyCheckDuration s)
       = computeNextDelay (clock (world s)) (Some lastCheck)
                          (WeeklyCheckInterval (HM.Config (hm s)))).
Proof.
  intros H.
  specialize (H (mkState (HM.mk (longInterval 2562048) false (5 * time.Minute)
                                "lastCheck.txt" "" 0)
                   (sampleWorld (sampleNoon + time.Hour) []
                      {["lastCheck.txt" := "2024-07-01T12:00:00Z"]}))
                sampleNoon eq_refl).
  vm_compute in H. discriminate.
Qed.

(** It fails as well, with an interval of 168 hours and no overflow,
    when the clock moves between the two reads: the check is due in one
    second, [time.Until] reads the clock three seconds later, and the
    duration returned is two seconds below zero. *)
Lemma nextWeeklyCheckDuration_late_read :
  ~ (forall s lastCheck,
       loadCheckpoint s = Some lastCheck ->
       Int64.in_range (WeeklyCheckInterval (HM.Config (hm s)) * time.Hour) ->
       fst (nextWeeklyCheckDuration s)
       = computeNextDelay (clock (world s)) (Some lastCheck)
                          (WeeklyCheckInterval (HM.Config (hm s)))).
Proof.
  intros H.
  assert (Hr : Int64.in_range (168 * time.Hour))
    by (split; vm_compute; discriminate).
  specialize (H (mkState (loggedIn false)
                   (makeWorld (sampleNoon + 168 * time.Hour - time.Second) 0 [] []
                      {["lastCheck.txt" := "2024-07-01T12:00:00Z"]} ∅ [] [] ∅
                      (3 * time.Second)))
                sampleNoon eq_refl Hr).
  vm_compute in H. discriminate.
Qed.

Lemma C4_witness :
  let s := mkState (loggedIn false)
             (makeWorld (sampleNoon + 100 * time.Hour) 0 [] []
                {["lastCheck.txt" := "2024-07-01T12:00:00Z"]} ∅ [] [] ∅
                (5 * time.Second)) in
  loadCheckpoint s = Some sampleNoon /\
  Int64.in_range (168 * time.Hour) /\
  time.minDuration
  <= sampleNoon + 168 * time.Hour - (clock (world s) + lag (world s))
  <= time.maxDuration /\
  fst (nextWeeklyCheckDuration s) = 68 * time.Hour - 5 * time.Second.
Proof.
  cbv zeta.
  assert (Hr : Int64.in_range (168 * time.Hour))
    by (split; vm_compute; discriminate).
  assert (Hm : time.minDuration
               <= sampleNoon + 168 * time.Hour
                  - (sampleNoon + 100 * time.Hour + 5 * time.Second)
               <= time.maxDuration)
    by (split; vm_compute; discriminate).
  split; [reflexivity |]. split; [exact Hr |]. split; [exact Hm |].
  exact (proj1 (proj2 (proj2 (C4_nextWeeklyCheckDuration_spec
                         (mkState (loggedIn false)
                            (makeWorld (sampleNoon + 100 * time.Hour) 0 [] []
                               {["lastCheck.txt" := "2024-07-01T12:00:00Z"]}
                               ∅ [] [] ∅ (5 * time.Second)))))
               sampleNoon eq_refl Hr Hm)).
Defined.

Lemma C5_witness :
  let s := mkState (loggedIn false)
             (sampleWorld sampleNoon [ok 200 "60"; ok 200 "60"] ∅) in
  let s' := snd (checkTemperature sampleRuntime s) in
  fst (getTemperature sampleRuntime s) = inr (float64_of_Z 60) /\
  float64_gt (float64_of_Z 60) (float64_of_Z 55) = true /\
  HM.TemperatureExceeded (hm s') = true /\
  HM.TemperatureExceeded (hm (snd (checkTemperature sampleRuntime s'))) = true.
Proof.
  cbv zeta. split; [reflexivity |]. split; [reflexivity |].
  pose proof (C5_checkTemperature_sets_flag sampleRuntime
                (mkState (loggedIn false)
                   (sampleWorld sampleNoon [ok 200 "60"; ok 200 "60"] ∅))
                (float64_of_Z 60) eq_refl) as H.
  cbv zeta in H. destruct H as (Hgt & _ & Hidem).
  split; [exact (Hgt eq_refl) |].
  rewrite (Hidem eq_refl). exact (Hgt eq_refl).
Defined.

(** C6 as stated fails at the expiry instant itself: the clock is not
    after the expiry, so no refresh is made and nothing is sent. *)
Lemma C6_counterexample :
  ~ (forall rt s,
       HM.Token (hm s) <> "" ->
       HM.TokenExpiry (hm s) <= clock (world s) ->
       getAuthToken rt s = refreshToken rt s).
Proof.
  intros H.
  specialize (H sampleRuntime
                (mkState (loggedIn false)
                   (sampleWorld (sampleNoon + 3600 * time.Second)
                                [ok 200 "tok2"] ∅))).
  assert (Hne : "tok1" <> "") by discriminate.
  specialize (H Hne (Z.le_refl _)).
  apply (f_equal (fun r => length (sent (world (snd r))))) in H.
  vm_compute in H. discriminate.
Qed.

Lemma C6_witness :
  let fresh := mkState (NewHeatingManager sampleConfig)
                 (sampleWorld sampleNoon [ok 200 "tok1"] ∅) in
  let expired := mkState (loggedIn false)
                   (sampleWorld (sampleNoon + 3601 * time.Second)
                                [ok 200 "tok2"] ∅) in
  let valid := mkState (loggedIn false)
                 (sampleWorld (sampleNoon + 3600 * time.Second)
                              [ok 200 "tok2"] ∅) in
  (HM.Token (hm fresh) = ""
   /\ getAuthToken sampleRuntime fresh = login sampleRuntime fresh) /\
  (HM.Token (hm expired) <> ""
   /\ HM.TokenExpiry (hm expired) < clock (world expired)
   /\ getAuthToken sampleRuntime expired = refreshToken sampleRuntime expired) /\
  (HM.Token (hm valid) <> ""
   /\ clock (world valid) <= HM.TokenExpiry (hm valid)
   /\ getAuthToken sampleRuntime valid = (None, valid)).
Proof.
  cbv zeta.
  assert (Hne : "tok1" <> "") by discriminate.
  assert (Hlt : sampleNoon + 3600 * time.Second < sampleNoon + 3601 * time.Second)
    by reflexivity.
  split; [| split].
  - split; [reflexivity |].
    exact (proj1 (C6_getAuthToken_decision sampleRuntime
                    (mkState (NewHeatingManager sampleConfig)
                       (sampleWorld sampleNoon [ok 200 "tok1"] ∅)))
                 eq_refl).
  - split; [exact Hne |]. split; [exact Hlt |].
    exact (proj1 (proj2 (C6_getAuthToken_decision sampleRuntime
                           (mkState (loggedIn false)
                              (sampleWorld (sampleNoon + 3601 * time.Second)
                                           [ok 200 "tok2"] ∅))))
                 Hne Hlt).
  - split; [exact Hne |]. split; [apply Z.le_refl |].
    exact (proj2 (proj2 (C6_getAuthToken_decision sampleRuntime
                           (mkState (loggedIn false)
                              (sampleWorld (sampleNoon + 3600 * time.Second)
                                           [ok 200 "tok2"] ∅))))
                 Hne (Z.le_refl _)).
Defined.


Lemma C8_witness :
  let s := mkState (loggedIn true) (sampleWorld sampleNoon [ok 503 "busy"] ∅) in
  fst (getTemperature sampleRuntime s)
  = inl "failed to get temperature: status code 503" /\
  HM.TemperatureExceeded (hm (snd (checkTemperature sampleRuntime s))) = true.
Proof.
  cbv zeta. split; [reflexivity |].
  exact (proj1 (C8_checkTemperature_error sampleRuntime
                  (mkState (loggedIn true)
                     (sampleWorld sampleNoon [ok 503 "busy"] ∅))
                  "failed to get temperature: status code 503" eq_refl)).
Defined.

Lemma C9_witness :
  let s := mkState (loggedIn false) (sampleWorld sampleNoon [ok 401 "denied"] ∅) in
  (fst (login sampleRuntime s)
   = Some "authentication failed: status code 401, body: denied"
   /\ HM.Token (hm (snd (login sampleRuntime s))) = "tok1") /\
  (fst (refreshToken sampleRuntime s)
   = Some "failed to refresh token: status code 401"
   /\ HM.TokenExpiry (hm (snd (refreshToken sampleRuntime s)))
      = sampleNoon + 3600 * time.Second).
Proof.
  cbv zeta.
  pose proof (C9_failed_authentication_keeps_session sampleRuntime
                (mkState (loggedIn false)
                   (sampleWorld sampleNoon [ok 401 "denied"] ∅))) as [Hl Hr].
  split; (split; [reflexivity |]).
  - exact (proj1 (Hl _ eq_refl)).
  - exact (proj2 (Hr _ eq_refl)).
Defined.

(** C10 as stated fails once the year has five digits: the text written
    for 10000-01-01 does not parse back. *)
Lemma C10_counterexample :
  ~ (forall s,
       HM.LastCheckFile (hm s) ∉ denied (world s) ->
       fst (readLastCheckTime (snd (saveLastCheckTime s)))
       = inr (time.truncSecond (clock (world s)))).
Proof.
  intros H.
  specialize (H (mkState (loggedIn false)
                   (sampleWorld (253402300800 * time.Second) [] ∅))
                (not_elem_of_empty _)).
  vm_compute in H. discriminate.
Qed.

Lemma C10_witness :
  let s := mkState (loggedIn false)
             (mkWorld (sampleNoon + 123456789) 7200 [] [] ∅ ∅ [] []) in
  (HM.LastCheckFile (hm s) ∉ denied (world s)) /\
  time.fourDigitYear (zone (world s)) (clock (world s)) /\
  zone (world s) mod 60 = 0 /\ -86400 < zone (world s) < 86400 /\
  files (world (snd (saveLastCheckTime s))) !! "lastCheck.txt"
  = Some "2024-07-01T14:00:00+02:00" /\
  fst (readLastCheckTime (snd (saveLastCheckTime s))) = inr sampleNoon.
Proof.
  cbv zeta.
  assert (Hy : time.fourDigitYear 7200 (sampleNoon + 123456789))
    by (split; vm_compute; [discriminate | reflexivity]).
  assert (Hz : -86400 < 7200 < 86400) by (split; reflexivity).
  split; [apply not_elem_of_empty |]. split; [exact Hy |].
  split; [reflexivity |]. split; [exact Hz |]. split; [reflexivity |].
  exact (C10_checkpoint_round_trip
           (mkState (loggedIn false)
              (mkWorld (sampleNoon + 123456789) 7200 [] [] ∅ ∅ [] []))
           (not_elem_of_empty _) Hy eq_refl Hz).
Defined.

(** * Further properties of the program *)

Section MoreFacts.

Variable rt : Runtime.
Variable controlURL : Config -> string.

Ltac exec :=
  cbv beta iota zeta delta
    [bind ret getHM Now setToken setTokenExpiry setTemperatureExceeded
     emit AfterFunc Do Post NewRequest addHeader fst snd].

Ltac cases :=
  repeat match goal with
  | |- context [match ?x with _ => _ end] =>
      lazymatch x with
      | context [match _ with _ => _ end] => fail
      | _ => destruct x eqn:?
      end
  end.

(** ** The token manager *)

Lemma login_cases s :
  match checkURL rt "https://cloud.solar-manager.ch/v1/oauth/login" with
  | Some e => login rt s = (Some ("error making auth request: " +:+ e), s)
  | None =>
      sentBetween s (snd (login rt s)) [loginRequest (HM.Config (hm s))] /\
      match network (world s) with
      | [] => fst (login rt s) <> None /\ hm (snd (login rt s)) = hm s
      | x :: rest =>
          network (world (snd (login rt s))) = rest /\
          clock (world (snd (login rt s))) = clock (world s) + elapsed x /\
          match reply x with
          | inl _ => fst (login rt s) <> None /\ hm (snd (login rt s)) = hm s
          | inr resp =>
              if StatusCode resp =? StatusOK then
                match decodeAuth rt (Body resp) with
                | inl _ => fst (login rt s) <> None /\ hm (snd (login rt s)) = hm s
                | inr (tok, exp) =>
                    fst (login rt s) = None /\
                    hm (snd (login rt s))
                    = HM.mk (HM.Config (hm s)) (HM.TemperatureExceeded (hm s))
                            (HM.CheckInterval (hm s)) (HM.LastCheckFile (hm s)) tok
                            (clock (world s) + elapsed x
                             + Int64.wrap64 (exp * time.Second))
                end
              else fst (login rt s) <> None /\ hm (snd (login rt s)) = hm s
          end
      end
  end.
Proof.
  unfold login, sentBetween, loginRequest. exec.
  destruct s as [h [c z net snt fs dn tm out]]. cbn [hm world network].
  destruct (checkURL rt _); [reflexivity |].
  destruct net as [| x rest]; cbn.
  - repeat split; solve [reflexivity | discriminate].
  - destruct (reply x) as [e | resp]; cbn.
    + repeat split; solve [reflexivity | discriminate].
    + destruct (StatusCode resp =? StatusOK); cbn.
      * destruct (decodeAuth rt (Body resp)) as [e | [tok exp]]; cbn;
          repeat split; solve [reflexivity | discriminate].
      * repeat split; solve [reflexivity | discriminate].
Qed.

Lemma refreshToken_cases s :
  match checkURL rt "https://cloud.solar-manager.ch/v1/oauth/refresh" with
  | Some e => refreshToken rt s = (Some ("error creating refresh request: " +:+ e), s)
  | None =>
      sentBetween s (snd (refreshToken rt s)) [refreshRequest (HM.Token (hm s))] /\
      match network (world s) with
      | [] => fst (refreshToken rt s) <> None /\ hm (snd (refreshToken rt s)) = hm s
      | x :: rest =>
          network (world (snd (refreshToken rt s))) = rest /\
          clock (world (snd (refreshToken rt s))) = clock (world s) + elapsed x /\
          match reply x with
          | inl _ =>
              fst (refreshToken rt s) <> None /\ hm (snd (refreshToken rt s)) = hm s
          | inr resp =>
              if StatusCode resp =? StatusOK then
                match decodeAuth rt (Body resp) with
                | inl _ =>
                    fst (refreshToken rt s) <> None
                    /\ hm (snd (refreshToken rt s)) = hm s
                | inr (tok, exp) =>
                    fst (refreshToken rt s) = None /\
                    hm (snd (refreshToken rt s))
                    = HM.mk (HM.Config (hm s)) (HM.TemperatureExceeded (hm s))
                            (HM.CheckInterval (hm s)) (HM.LastCheckFile (hm s)) tok
                            (clock (world s) + elapsed x
                             + Int64.wrap64 (exp * time.Second))
                end
              else fst (refreshToken rt s) <> None
                   /\ hm (snd (refreshToken rt s)) = hm s
          end
      end
  end.
Proof.
  unfold refreshToken, sentBetween, refreshRequest. exec.
  destruct s as [h [c z net snt fs dn tm out]]. cbn [hm world network].
  destruct (checkURL rt _); [reflexivity |].
  destruct net as [| x rest]; cbn.
  - repeat split; solve [reflexivity | discriminate].
  - destruct (reply x) as [e | resp]; cbn.
    + repeat split; solve [reflexivity | discriminate].
    + destruct (StatusCode resp =? StatusOK); cbn.
      * destruct (decodeAuth rt (Body resp)) as [e | [tok exp]]; cbn;
          repeat split; solve [reflexivity | discriminate].
      * repeat split; solve [reflexivity | discriminate].
Qed.

(** X1: a login that gets the answer [authAnswer] stores the token of the
    answer, with the expiry the answer's validity after the clock at
    the end of the exchange (modulo 2^64 nanoseconds), and sends the
    credentials once; any other outcome is an error. *)
Theorem login_stores_session s :
  checkURL rt "https://cloud.solar-manager.ch/v1/oauth/login" = None ->
  let s' := snd (login rt s) in
  (fst (login rt s) = None <-> exists tok exp, authAnswer rt s tok exp) /\
  (forall tok exp,
     authAnswer rt s tok exp ->
     HM.Token (hm s') = tok /\
     HM.TokenExpiry (hm s')
     = clock (world s') + Int64.wrap64 (exp * time.Second) /\
     (Int64.in_range (exp * time.Second) ->
      HM.TokenExpiry (hm s') = clock (world s') + exp * time.Second) /\
     sent (world s') = (sent (world s) ++ [loginRequest (HM.Config (hm s))])%list).
Proof.
  intros Hurl. cbv zeta. pose proof (login_cases s) as H. rewrite Hurl in H.
  destruct H as [Hsent H]. unfold authAnswer.
  destruct (network (world s)) as [| x rest] eqn:Hn.
  { destruct H as [Hf _]. split.
    - split; [contradiction |]. intros (? & ? & ? & ? & ? & ? & _). discriminate.
    - intros ? ? (? & ? & ? & ? & _). discriminate. }
  destruct H as (Hnet & Hclock & H).
  destruct (reply x) as [e | resp] eqn:Hr.
  { destruct H as [Hf _]. split.
    - split; [contradiction |].
      intros (? & ? & ? & ? & ? & Hx & Hr' & _). congruence.
    - intros ? ? (? & ? & ? & Hx & Hr' & _). congruence. }
  destruct (Z.eqb_spec (StatusCode resp) StatusOK) as [Hs | Hs].
  2:{ destruct H as [Hf _]. split.
      - split; [contradiction |].
        intros (? & ? & ? & ? & r' & Hx & Hr' & Hs' & _).
        assert (r' = resp) by congruence. subst r'. contradiction.
      - intros ? ? (? & ? & r' & Hx & Hr' & Hs' & _).
        assert (r' = resp) by congruence. subst r'. contradiction. }
  destruct (decodeAuth rt (Body resp)) as [e | [tok exp]] eqn:Hd.
  { destruct H as [Hf _]. split.
    - split; [contradiction |].
      intros (? & ? & ? & ? & r' & Hx & Hr' & _ & Hd').
      assert (r' = resp) by congruence. subst r'. congruence.
    - intros ? ? (? & ? & r' & Hx & Hr' & _ & Hd').
      assert (r' = resp) by congruence. subst r'. congruence. }
  destruct H as [Hf Hhm]. split.
  - split; [| intros _; exact Hf]. intros _. exists tok, exp, x, rest, resp. auto.
  - intros tok' exp' (x' & rest' & r' & Hx & Hr' & _ & Hd').
    assert (x' = x) by congruence. subst x'.
    assert (r' = resp) by congruence. subst r'.
    assert (tok' = tok /\ exp' = exp) as [-> ->] by (split; congruence).
    rewrite Hhm, Hclock. cbn [HM.Token HM.TokenExpiry].
    repeat split; try reflexivity; try exact Hsent.
    intros Hr2. now rewrite wrap64_id.
Qed.

(** X2: a refresh that gets the answer [authAnswer] stores the token of
    the answer with its expiry, as a login does, and sends the token
    held so far and no credentials; any other outcome is an error. *)
Theorem refreshToken_stores_session s :
  checkURL rt "https://cloud.solar-manager.ch/v1/oauth/refresh" = None ->
  let s' := snd (refreshToken rt s) in
  (fst (refreshToken rt s) = None <-> exists tok exp, authAnswer rt s tok exp) /\
  (forall tok exp,
     authAnswer rt s tok exp ->
     HM.Token (hm s') = tok /\
     HM.TokenExpiry (hm s')
     = clock (world s') + Int64.wrap64 (exp * time.Second) /\
     (Int64.in_range (exp * time.Second) ->
      HM.TokenExpiry (hm s') = clock (world s') + exp * time.Second) /\
     sent (world s') = (sent (world s) ++ [refreshRequest (HM.Token (hm s))])%list).
Proof.
  intros Hurl. cbv zeta. pose proof (refreshToken_cases s) as H. rewrite Hurl in H.
  destruct H as [Hsent H]. unfold authAnswer.
  destruct (network (world s)) as [| x rest] eqn:Hn.
  { destruct H as [Hf _]. split.
    - split; [contradiction |]. intros (? & ? & ? & ? & ? & ? & _). discriminate.
    - intros ? ? (? & ? & ? & ? & _). discriminate. }
  destruct H as (Hnet & Hclock & H).
  destruct (reply x) as [e | resp] eqn:Hr.
  { destruct H as [Hf _]. split.
    - split; [contradiction |].
      intros (? & ? & ? & ? & ? & Hx & Hr' & _). congruence.
    - intros ? ? (? & ? & ? & Hx & Hr' & _). congruence. }
  destruct (Z.eqb_spec (StatusCode resp) StatusOK) as [Hs | Hs].
  2:{ destruct H as [Hf _]. split.
      - split; [contradiction |].
        intros (? & ? & ? & ? & r' & Hx & Hr' & Hs' & _).
        assert (r' = resp) by congruence. subst r'. contradiction.
      - intros ? ? (? & ? & r' & Hx & Hr' & Hs' & _).
        assert (r' = resp) by congruence. subst r'. contradiction. }
  destruct (decodeAuth rt (Body resp)) as [e | [tok exp]] eqn:Hd.
  { destruct H as [Hf _]. split.
    - split; [contradiction |].
      intros (? & ? & ? & ? & r' & Hx & Hr' & _ & Hd').
      assert (r' = resp) by congruence. subst r'. congruence.
    - intros ? ? (? & ? & r' & Hx & Hr' & _ & Hd').
      assert (r' = resp) by congruence. subst r'. congruence. }
  destruct H as [Hf Hhm]. split.
  - split; [| intros _; exact Hf]. intros _. exists tok, exp, x, rest, resp. auto.
  - intros tok' exp' (x' & rest' & r' & Hx & Hr' & _ & Hd').
    assert (x' = x) by congruence. subst x'.
    assert (r' = resp) by congruence. subst r'.
    assert (tok' = tok /\ exp' = exp) as [-> ->] by (split; congruence).
    rewrite Hhm, Hclock. cbn [HM.Token HM.TokenExpiry].
    repeat split; try reflexivity; try exact Hsent.
    intros Hr2. now rewrite wrap64_id.
Qed.

Lemma getAuthToken_sent_cases s :
  exists l,
    sentBetween s (snd (getAuthToken rt s)) l /\
    (l = [] \/
     (HM.Token (hm s) = "" /\ l = [loginRequest (HM.Config (hm s))]) \/
     (HM.Token (hm s) <> "" /\ l = [refreshRequest (HM.Token (hm s))])).
Proof.
  unfold getAuthToken, bind, getHM, Now.
  destruct (String.eqb_spec (HM.Token (hm s)) "") as [He | Hne].
  - pose proof (login_cases s) as H.
    destruct (checkURL rt _).
    + exists []. rewrite H. split; [| auto].
      unfold sentBetween. cbn. now rewrite app_nil_r.
    + destruct H as [H _]. exists [loginRequest (HM.Config (hm s))]. auto.
  - destruct (time.After _ _).
    + pose proof (refreshToken_cases s) as H.
      destruct (checkURL rt _).
      * exists []. rewrite H. split; [| auto].
        unfold sentBetween. cbn. now rewrite app_nil_r.
      * destruct H as [H _]. exists [refreshRequest (HM.Token (hm s))]. auto.
    + exists []. split; [| auto].
      unfold sentBetween, ret. cbn. now rewrite app_nil_r.
Qed.

(** X3: what [getAuthToken] sends: nothing, or the login request when no
    token is held, or the refresh request with the token held; never
    more than one request, and the credentials only in a login. *)
Theorem getAuthToken_requests s :
  exists l,
    sentBetween s (snd (getAuthToken rt s)) l /\
    (l = [] \/
     (HM.Token (hm s) = "" /\ l = [loginRequest (HM.Config (hm s))]) \/
     (HM.Token (hm s) <> "" /\ l = [refreshRequest (HM.Token (hm s))])).
Proof. exact (getAuthToken_sent_cases s). Qed.

(** X4: a call of [getAuthToken] that fails while a token is held was a
    refresh, and it leaves the manager as it was; the next call, at the
    same or a later clock, is a refresh again, with the same token: the
    manager does not fall back to a login. *)
Theorem failed_refresh_is_retried s err s2 :
  HM.Token (hm s) <> "" ->
  fst (getAuthToken rt s) = Some err ->
  hm s2 = hm (snd (getAuthToken rt s)) ->
  clock (world s) <= clock (world s2) ->
  getAuthToken rt s = refreshToken rt s /\
  hm (snd (getAuthToken rt s)) = hm s /\
  HM.Token (hm s2) = HM.Token (hm s) /\
  getAuthToken rt s2 = refreshToken rt s2 /\
  (checkURL rt "https://cloud.solar-manager.ch/v1/oauth/refresh" = None ->
   sentBetween s2 (snd (getAuthToken rt s2)) [refreshRequest (HM.Token (hm s))]).
Proof.
  intros Hne Hf Hhm Hclock.
  destruct (Z.ltb_spec (HM.TokenExpiry (hm s)) (clock (world s))) as [Hlt | Hge].
  - rewrite (getAuthToken_refresh rt s Hne Hlt) in Hf, Hhm |- *.
    rewrite (refreshToken_error rt s err Hf) in Hhm.
    assert (Hagain : getAuthToken rt s2 = refreshToken rt s2)
      by (apply getAuthToken_refresh; rewrite Hhm; [assumption | lia]).
    split; [reflexivity |].
    split; [exact (refreshToken_error rt s err Hf) |].
    split; [now rewrite Hhm |].
    split; [exact Hagain |].
    intros Hurl. rewrite Hagain.
    pose proof (refreshToken_cases s2) as Hc. rewrite Hurl in Hc.
    destruct Hc as [Hsent _]. now rewrite Hhm in Hsent.
  - rewrite (getAuthToken_reuse rt s Hne Hge) in Hf. discriminate.
Qed.

(** ** The actuator and the reader *)

Lemma getAuthToken_error s err :
  fst (getAuthToken rt s) = Some err -> hm (snd (getAuthToken rt s)) = hm s.
Proof.
  unfold getAuthToken, bind, getHM, Now.
  destruct (String.eqb _ _); [apply login_error |].
  destruct (time.After _ _); [apply refreshToken_error |].
  discriminate.
Qed.

Lemma getAuthToken_commands m s :
  commands m (sent (world (snd (getAuthToken rt s)))) = commands m (sent (world s)).
Proof.
  destruct (getAuthToken_sent rt s) as (l & Hl & HP).
  unfold sentBetween in Hl. rewrite Hl, commands_app, (commands_POST m l HP). lia.
Qed.

(** X6: when the token cannot be obtained, a heating command and a
    temperature read stop there: the manager is as before, no command
    and no sensor request is sent, and the error is returned - with a
    prefix by the actuator, as it is by the reader. *)
Theorem auth_failure_stops_the_call s err :
  fst (getAuthToken rt s) = Some err ->
  let s1 := snd (getAuthToken rt s) in
  turnHeatingOn rt controlURL s = (Some ("error getting auth token: " +:+ err), s1) /\
  turnHeatingOff rt controlURL s = (Some ("error getting auth token: " +:+ err), s1) /\
  getTemperature rt s = (inl err, s1) /\
  hm s1 = hm s /\
  (forall m, commands m (sent (world s1)) = commands m (sent (world s))) /\
  Forall (fun r => Method r = "POST") (drop (length (sent (world s))) (sent (world s1))).
Proof.
  intros He. cbv zeta.
  unfold turnHeatingOn, turnHeatingOff, getTemperature, bind.
  pose proof (getAuthToken_error s err He) as Hhm.
  pose proof (fun m => getAuthToken_commands m s) as Hc.
  destruct (getAuthToken_sent rt s) as (l & Hl & HP).
  destruct (getAuthToken rt s) as [e s1]. cbn in He, Hhm, Hc, Hl |- *. subst e.
  repeat split; try assumption.
  unfold sentBetween in Hl. rewrite Hl, drop_app_length. exact HP.
Qed.

(** X7: a control request with a well-formed URL sends exactly one PUT with
    the bearer token and the JSON content type, succeeds exactly on a
    response with status 200 or 204, and prints its success line only
    for status 200. *)
Theorem heat_pump_request_outcome url body s :
  checkURL rt url = None ->
  let r := makeHeatingControlRequest rt url body s in
  let answered status :=
    exists x rest resp,
      network (world s) = x :: rest /\ reply x = inr resp /\
      StatusCode resp = status in
  hm (snd r) = hm s /\
  sent (world (snd r))
  = (sent (world s)
     ++ [mkRequest "PUT" url
           [("Authorization", "Bearer " +:+ HM.Token (hm s));
            ("Content-Type", "application/json")] (Some body)])%list /\
  (fst r = None <-> answered StatusOK \/ answered StatusNoContent) /\
  (answered StatusOK ->
   output (world (snd r)) = (output (world s) ++ [PrintHeatPumpStateChanged])%list) /\
  (~ answered StatusOK -> output (world (snd r)) = output (world s)).
Proof.
  intros Hurl. cbv zeta.
  unfold makeHeatingControlRequest, NewRequest. rewrite Hurl.
  unfold bind, getHM, Do, addHeader, emit, ret.
  destruct s as [h [c z net snt fs dn tm out]].
  cbn [hm world network sent output clock zone files denied timers fst snd
       Method URL Header RequestBody app].
  destruct net as [| x rest].
  { cbn. repeat split; try discriminate.
    - intros [(? & ? & ? & ? & _) | (? & ? & ? & ? & _)]; discriminate.
    - intros (? & ? & ? & ? & _). discriminate. }
  destruct (reply x) as [e | resp] eqn:Hr.
  { cbn. repeat split; try discriminate.
    - intros [(? & ? & ? & Hx & Hr' & _) | (? & ? & ? & Hx & Hr' & _)];
        inversion Hx; subst; congruence.
    - intros (? & ? & ? & Hx & Hr' & _). inversion Hx; subst; congruence. }
  cbn [fst snd].
  destruct (Z.eqb_spec (StatusCode resp) StatusOK) as [H200 | H200];
    cbn [negb andb].
  { cbn. repeat split; auto.
    - intros _. left. exists x, rest, resp. auto.
    - intros Hn. exfalso. apply Hn. exists x, rest, resp. auto. }
  destruct (Z.eqb_spec (StatusCode resp) StatusNoContent) as [H204 | H204];
    cbn.
  { repeat split; auto.
    - intros _. right. exists x, rest, resp. auto.
    - intros (? & ? & r' & Hx & Hr' & Hs). inversion Hx; subst.
      assert (r' = resp) by congruence. subst r'. contradiction. }
  repeat split; auto; try discriminate.
  - intros [(? & ? & r' & Hx & Hr' & Hs) | (? & ? & r' & Hx & Hr' & Hs)];
      inversion Hx; subst; assert (r' = resp) by congruence; subst r';
      contradiction.
  - intros (? & ? & r' & Hx & Hr' & Hs). inversion Hx; subst.
    assert (r' = resp) by congruence. subst r'. contradiction.
Qed.

(** X8: with a token and a well-formed sensor URL, a temperature read sends
    exactly one GET for the configured sensor with the bearer token, and
    returns a reading exactly when the response has status 200 and its
    body decodes to that reading. *)
Theorem getTemperature_outcome s s1 :
  getAuthToken rt s = (None, s1) ->
  checkURL rt (SolarManagerURL (HM.Config (hm s1)) +:+ "/"
               +:+ SolarManagerSensorID (HM.Config (hm s1))) = None ->
  let r := getTemperature rt s in
  hm (snd r) = hm s1 /\
  sent (world (snd r))
  = (sent (world s1) ++ [sensorRequest (HM.Config (hm s1)) (HM.Token (hm s1))])%list /\
  (forall t,
     fst r = inr t <->
     exists x rest resp,
       network (world s1) = x :: rest /\ reply x = inr resp /\
       StatusCode resp = StatusOK /\ decodeTemperature rt (Body resp) = inr t).
Proof.
  intros Ha Hurl. cbv zeta. unfold getTemperature, bind. rewrite Ha.
  cbn [getHM fst snd]. unfold NewRequest. rewrite Hurl.
  unfold bind, Do, addHeader, ret, sensorRequest.
  destruct s1 as [h [c z net snt fs dn tm out]].
  cbn [hm world network sent output clock zone files denied timers fst snd
       Method URL Header RequestBody app].
  destruct net as [| x rest].
  { cbn. repeat split; try discriminate.
    intros (? & ? & ? & ? & _). discriminate. }
  destruct (reply x) as [e | resp] eqn:Hr.
  { cbn. repeat split; try discriminate.
    intros (? & ? & ? & Hx & Hr' & _). inversion Hx; subst; congruence. }
  cbn [fst snd].
  destruct (Z.eqb_spec (StatusCode resp) StatusOK) as [H200 | H200];
    cbn [negb].
  2:{ cbn. repeat split; try discriminate.
      intros (? & ? & r' & Hx & Hr' & Hs & _). inversion Hx; subst.
      assert (r' = resp) by congruence. subst r'. contradiction. }
  destruct (decodeTemperature rt (Body resp)) as [e | t0] eqn:Hd; cbn.
  - repeat split; try discriminate.
    intros (? & ? & r' & Hx & Hr' & _ & Hd'). inversion Hx; subst.
    assert (r' = resp) by congruence. subst r'. congruence.
  - repeat split.
    + intros Ht. inversion Ht; subst. exists x, rest, resp. auto.
    + intros (? & ? & r' & Hx & Hr' & _ & Hd'). inversion Hx; subst.
      assert (r' = resp) by congruence. subst r'. congruence.
Qed.

(** ** The monitoring loop *)

Lemma keeps_refl s : keepsCheckpointAndTimers s s.
Proof. unfold keepsCheckpointAndTimers. repeat split; reflexivity. Qed.

Lemma keeps_trans s1 s2 s3 :
  keepsCheckpointAndTimers s1 s2 -> keepsCheckpointAndTimers s2 s3 ->
  keepsCheckpointAndTimers s1 s3.
Proof. unfold keepsCheckpointAndTimers. intuition congruence. Qed.

Lemma getTemperature_sent s :
  exists l,
    sentBetween s (snd (getTemperature rt s)) l /\
    (length l <= 2)%nat /\ forall m, commands m l = 0%nat.
Proof.
  unfold getTemperature, bind.
  destruct (getAuthToken_sent_cases s) as (l & Hl & Hcases).
  assert (Hl1 : (length l <= 1)%nat /\ forall m, commands m l = 0%nat).
  { destruct Hcases as [-> | [[_ ->] | [_ ->]]]; split; cbn; auto. }
  destruct Hl1 as [Hlen Hcom]. unfold sentBetween in *.
  destruct (getAuthToken rt s) as [[e |] s1]; cbn [fst snd] in *.
  - exists l. cbn. auto with arith.
  - unfold getHM, NewRequest, bind, Do, addHeader, ret.
    destruct (checkURL rt _); cbn [fst snd].
    + exists l. auto with arith.
    + destruct s1 as [h [c z net snt fs dn tm out]]. cbn in Hl |- *.
      exists (l ++ [sensorRequest (HM.Config h) (HM.Token h)])%list.
      unfold sensorRequest.
      split; [| split].
      * destruct net as [| x rest]; cbn; [| cases; cbn];
          rewrite Hl, <- app_assoc; reflexivity.
      * rewrite length_app. cbn. lia.
      * intros m. rewrite commands_app, Hcom. reflexivity.
Qed.

Lemma checkTemperature_effects s :
  keepsCheckpointAndTimers s (snd (checkTemperature rt s)) /\
  exists l,
    sentBetween s (snd (checkTemperature rt s)) l /\
    (length l <= 2)%nat /\ forall m, commands m l = 0%nat.
Proof.
  unfold checkTemperature, bind.
  pose proof (getTemperature_frame rt s) as F.
  destruct (getTemperature_sent s) as (l & Hl & Hlen & Hcom).
  unfold sentBetween, keepsCheckpointAndTimers in *.
  destruct (getTemperature rt s) as [[err | t] s1]; cbn [fst snd] in *.
  - destruct F. cbn. split; [tauto |]. exists l. auto.
  - destruct F. cbn [getHM fst snd].
    destruct (float64_gt _ _); cbn; (split; [tauto |]); exists l; auto.
Qed.

(** X10: with a positive interval the monitoring loop runs and never
    actuates: whatever the ticks and the answers of the network, it
    sends no heating command, at most two requests per tick, and leaves
    the configuration, the checkpoint and the timers alone. *)
Theorem monitoring_never_actuates arrivals s :
  0 < HM.CheckInterval (hm s) ->
  let r := StartTemperatureMonitoring rt arrivals s in
  fst r = None /\
  keepsCheckpointAndTimers s (snd r) /\
  (forall m, commands m (sent (world (snd r))) = commands m (sent (world s))) /\
  (length (sent (world (snd r)))
   <= length (sent (world s)) + 2 * length arrivals)%nat.
Proof.
  intros Hpos. cbv zeta. unfold StartTemperatureMonitoring, bind, getHM, NewTicker.
  replace (HM.CheckInterval (hm s) <=? 0) with false by lia.
  clear Hpos.
  assert (H : keepsCheckpointAndTimers s (snd (monitoringLoop rt arrivals s)) /\
              (forall m, commands m (sent (world (snd (monitoringLoop rt arrivals s))))
                         = commands m (sent (world s))) /\
              (length (sent (world (snd (monitoringLoop rt arrivals s))))
               <= length (sent (world s)) + 2 * length arrivals)%nat).
  { revert s. induction arrivals as [| t rest IH]; intros s.
    - cbn. split; [apply keeps_refl |]. split; [reflexivity | lia].
    - set (s0 := snd (arrive t s)).
      assert (Heq : monitoringLoop rt (t :: rest) s
                    = monitoringLoop rt rest (snd (checkTemperature rt s0))).
      { cbn [monitoringLoop]. unfold bind. subst s0. cbn [arrive fst snd].
        destruct (checkTemperature rt _) as [[] ?]. reflexivity. }
      rewrite Heq. clear Heq.
      destruct (checkTemperature_effects s0) as (K & l & Hl & Hlen & Hcom).
      destruct (IH (snd (checkTemperature rt s0))) as (K' & Hc' & Hlen').
      unfold sentBetween in *.
      assert (Hs0 : sent (world s0) = sent (world s)) by reflexivity.
      split; [| split].
      + assert (K0 : keepsCheckpointAndTimers s s0)
          by (unfold keepsCheckpointAndTimers; repeat split; reflexivity).
        exact (keeps_trans _ _ _ (keeps_trans _ _ _ K0 K) K').
      + intros m. rewrite Hc', Hl, commands_app, Hcom, Hs0. lia.
      + rewrite Hl, length_app, Hs0 in Hlen'. cbn [length]. lia. }
  destruct (monitoringLoop rt arrivals s) as [[] s']. cbn in *. tauto.
Qed.

(** X11: [NewHeatingManager] turns the configured minutes into the interval
    of the ticker, and the monitoring panics before its first read
    exactly when they are not positive - as with a configuration that
    leaves checkInterval out. *)
Theorem monitoring_needs_positive_interval c w arrivals :
  -153722867 <= CheckInterval c <= 153722867 ->
  let s := mkState (NewHeatingManager c) w in
  HM.CheckInterval (hm s) = CheckInterval c * time.Minute /\
  (CheckInterval c <= 0 ->
   StartTemperatureMonitoring rt arrivals s
   = (Some "non-positive interval for NewTicker", s)) /\
  (0 < CheckInterval c -> fst (StartTemperatureMonitoring rt arrivals s) = None).
Proof.
  intros Hr. cbv zeta.
  assert (Hi : Int64.mul (CheckInterval c) time.Minute
               = CheckInterval c * time.Minute).
  { unfold Int64.mul. apply wrap64_id.
    unfold Int64.in_range, Int64.min, Int64.max, time.Minute, time.Second. lia. }
  unfold StartTemperatureMonitoring, bind, getHM, NewTicker.
  cbn [hm NewHeatingManager HM.CheckInterval fst snd]. rewrite Hi.
  split; [reflexivity |]. split; intros H.
  - replace (_ <=? 0) with true
      by (unfold time.Minute, time.Second; lia).
    reflexivity.
  - replace (_ <=? 0) with false
      by (unfold time.Minute, time.Second; lia).
    destruct (monitoringLoop rt arrivals _). reflexivity.
Qed.

(** ** The weekly loop *)

Lemma weeklyCheck_flag s :
  HM.TemperatureExceeded (hm (snd (weeklyCheck rt controlURL s))) = false.
Proof.
  rewrite weeklyCheck_eq.
  destruct (saveLastCheckTime_rest
              (snd (setTemperatureExceeded false (afterActuation rt controlURL s))))
    as (Hhm & _).
  cbv zeta in Hhm. rewrite Hhm. reflexivity.
Qed.

Lemma weeklyCheck_keeps s :
  let s' := snd (weeklyCheck rt controlURL s) in
  HM.Config (hm s') = HM.Config (hm s) /\
  HM.LastCheckFile (hm s') = HM.LastCheckFile (hm s) /\
  zone (world s') = zone (world s) /\
  denied (world s') = denied (world s).
Proof.
  cbv zeta. rewrite weeklyCheck_eq.
  destruct (saveLastCheckTime_rest
              (snd (setTemperatureExceeded false (afterActuation rt controlURL s))))
    as (Hhm & _ & Hz & _ & _ & Hd & _).
  destruct (afterActuation_frame rt controlURL s) as (Hc & Hf & Hz' & _ & Hd').
  cbv zeta in *. rewrite Hhm, Hz, Hd. cbn. auto.
Qed.

Lemma weeklyCheck_timers s :
  let s' := snd (weeklyCheck rt controlURL s) in
  timers (world s')
  = (timers (world s)
     ++ if HM.TemperatureExceeded (hm s) then []
        else [mkTimer (clock (world s')) (4 * time.Hour) turnHeatingOffLater])%list.
Proof.
  cbv zeta. rewrite weeklyCheck_eq.
  destruct (saveLastCheckTime_rest
              (snd (setTemperatureExceeded false (afterActuation rt controlURL s))))
    as (_ & Hclock & _ & _ & _ & _ & Htimers).
  cbv zeta in *. rewrite Htimers, Hclock.
  cbn [setTemperatureExceeded snd world].
  unfold afterActuation.
  destruct (HM.TemperatureExceeded (hm s)); [now rewrite app_nil_r |].
  pose proof (turnHeatingOn_frame rt controlURL s) as F.
  destruct (turnHeatingOn rt controlURL s) as [[e |] s1]; cbn in F |- *;
    now rewrite (frame_timers _ _ F).
Qed.

Lemma weeklyCheck_sent s :
  sent (world (snd (weeklyCheck rt controlURL s)))
  = if HM.TemperatureExceeded (hm s) then sent (world s)
    else sent (world (snd (turnHeatingOn rt controlURL s))).
Proof.
  rewrite weeklyCheck_eq.
  destruct (saveLastCheckTime_rest
              (snd (setTemperatureExceeded false (afterActuation rt controlURL s))))
    as (_ & _ & _ & _ & Hsent & _).
  cbv zeta in *. rewrite Hsent. cbn [setTemperatureExceeded snd world].
  unfold afterActuation.
  destruct (HM.TemperatureExceeded (hm s)); [reflexivity |].
  destruct (turnHeatingOn rt controlURL s) as [[e |] s1]; reflexivity.
Qed.

Lemma weeklyCheck_commands s :
  let s' := snd (weeklyCheck rt controlURL s) in
  commands 2 (sent (world s')) = commands 2 (sent (world s)) /\
  (commands 1 (sent (world s)) <= commands 1 (sent (world s'))
   <= commands 1 (sent (world s)) + 1)%nat.
Proof.
  cbv zeta. rewrite weeklyCheck_sent.
  destruct (HM.TemperatureExceeded (hm s)); [lia |].
  rewrite !turnHeatingOn_commands.
  rewrite (bool_decide_eq_false_2 (1 = 2)) by discriminate.
  rewrite (bool_decide_eq_true_2 (1 = 1)) by reflexivity.
  destruct (fst (getAuthToken rt s)); [cbn; lia |].
  destruct (checkURL rt _); cbn; lia.
Qed.

(** X12: the delay that [nextWeeklyCheckDuration] returns is never
    above the largest Duration and never below minus the time that
    passed between its two clock reads, whatever the checkpoint, the
    clock and the configured interval: it is negative only when the
    clock passed the due time between the reads. *)
Theorem nextWeeklyCheckDuration_bounds s :
  0 <= lag (world s) ->
  Z.max time.minDuration (- lag (world s))
  <= fst (nextWeeklyCheckDuration s) <= time.maxDuration.
Proof.
  intros Hlag. rewrite nextWeeklyCheckDuration_eq.
  unfold time.maxDuration, time.minDuration, Int64.max, Int64.min.
  destruct (loadCheckpoint s) as [lastCheck |]; [| cbn [fst]; lia].
  cbv zeta.
  set (nextCheck := lastCheck + _).
  destruct (Z.ltb_spec nextCheck (clock (world s))); cbn [fst]; [lia |].
  unfold time.Sub, time.minDuration, time.maxDuration, Int64.min, Int64.max.
  destruct (Z.ltb_spec (nextCheck - (clock (world s) + lag (world s))) (- 2 ^ 63));
    [lia |].
  destruct (Z.ltb_spec (2 ^ 63 - 1) (nextCheck - (clock (world s) + lag (world s))));
    lia.
Qed.

Lemma weeklyRound_eq s :
  weeklyRound rt controlURL s
  = nextWeeklyCheckDuration (snd (weeklyCheck rt controlURL s)).
Proof.
  unfold weeklyRound, bind.
  destruct (weeklyCheck rt controlURL s) as [[] s1]. reflexivity.
Qed.



Lemma denied_checkpoint_due s :
  HM.LastCheckFile (hm s) ∈ denied (world s) ->
  nextWeeklyCheckDuration s = (0, s).
Proof.
  intros Hd. rewrite nextWeeklyCheckDuration_eq.
  unfold loadCheckpoint. pose proof (readLastCheckTime_eq s) as H.
  cbv zeta in H. rewrite H, decide_True by assumption. reflexivity.
Qed.

Lemma weeklyLoop_cons late rest d s :
  weeklyLoop rt controlURL (late :: rest) d s
  = let s0 := snd (arrive (clock (world s) + Z.max d 0 + late) s) in
    let s1 := snd (weeklyCheck rt controlURL s0) in
    weeklyLoop rt controlURL rest
      (fst (nextWeeklyCheckDuration s1)) (snd (nextWeeklyCheckDuration s1)).
Proof.
  cbn [weeklyLoop]. unfold bind, Now, arrive. cbn [fst snd]. cbv zeta.
  rewrite weeklyRound_eq.
  destruct (nextWeeklyCheckDuration _) as [d' s']. reflexivity.
Qed.

Lemma weeklyLoop_denied lateness s d :
  HM.LastCheckFile (hm s) ∈ denied (world s) -> d = 0 ->
  fst (weeklyLoop rt controlURL lateness d s) = 0.
Proof.
  revert s d. induction lateness as [| late rest IH]; intros s d Hd ->.
  - reflexivity.
  - rewrite weeklyLoop_cons. cbv zeta.
    set (s0 := snd (arrive _ s)).
    assert (Hd0 : HM.LastCheckFile (hm s0) ∈ denied (world s0)) by exact Hd.
    destruct (weeklyCheck_keeps s0) as (_ & Hf & _ & Hden).
    cbv zeta in Hf, Hden.
    assert (Hd1 : HM.LastCheckFile (hm (snd (weeklyCheck rt controlURL s0)))
                  ∈ denied (world (snd (weeklyCheck rt controlURL s0))))
      by (rewrite Hf, Hden; exact Hd0).
    rewrite (denied_checkpoint_due _ Hd1). cbn [fst snd].
    apply IH; [exact Hd1 | reflexivity].
Qed.

(** X14: when the checkpoint file cannot be opened, every duration the
    weekly timer is set to is zero: the check fires again as soon as
    the previous one returns, for any number of fires. *)
Theorem unopenable_checkpoint_fires_without_pause lateness s :
  HM.LastCheckFile (hm s) ∈ denied (world s) ->
  fst (StartWeeklyCheck rt controlURL lateness s) = 0.
Proof.
  intros Hd. unfold StartWeeklyCheck, bind.
  rewrite (denied_checkpoint_due s Hd).
  apply weeklyLoop_denied; [exact Hd | reflexivity].
Qed.

(** X16: two weekly checks with no temperature tick in between: the second
    always runs [turnHeatingOn] and arms a timer, whether or not the
    first was skipped, because the first left the flag cleared. *)
Theorem consecutive_fire_actuates s :
  let s1 := snd (weeklyCheck rt controlURL s) in
  let s2 := snd (weeklyCheck rt controlURL s1) in
  timers (world s2)
  = (timers (world s1)
     ++ [mkTimer (clock (world s2)) (4 * time.Hour) turnHeatingOffLater])%list /\
  sent (world s2) = sent (world (snd (turnHeatingOn rt controlURL s1))).
Proof.
  cbv zeta.
  pose proof (weeklyCheck_timers (snd (weeklyCheck rt controlURL s))) as Ht.
  pose proof (weeklyCheck_sent (snd (weeklyCheck rt controlURL s))) as Hs.
  cbv zeta in Ht. rewrite (weeklyCheck_flag s) in Ht, Hs. auto.
Qed.

(** X17: the callback of the off timer changes neither the flag nor the
    configuration, the files or the timers; it sends no on command and
    one off command, the latter unless the token or the request could
    not be obtained. *)
Theorem timer_callback_effects s :
  let s' := snd (runClosure rt controlURL turnHeatingOffLater s) in
  frame s s' /\
  commands 1 (sent (world s')) = commands 1 (sent (world s)) /\
  commands 2 (sent (world s'))
  = (commands 2 (sent (world s))
     + match fst (getAuthToken rt s),
             checkURL rt (controlURL (HM.Config (hm (snd (getAuthToken rt s)))))
       with
       | None, None => 1
       | _, _ => 0
       end)%nat.
Proof.
  cbv zeta. split; [| exact (runClosure_commands rt controlURL s)].
  unfold runClosure, bind.
  pose proof (turnHeatingOff_frame rt controlURL s) as F.
  destruct (turnHeatingOff rt controlURL s) as [[e |] s1]; cbn in F |- *;
    destruct F; split; assumption.
Qed.

Lemma weeklyLoop_bounds lateness d s :
  let s' := snd (weeklyLoop rt controlURL lateness d s) in
  (exists armed,
     timers (world s') = (timers (world s) ++ armed)%list /\
     (length armed <= length lateness)%nat /\
     Forall (fun t => delay t = 4 * time.Hour /\ callback t = turnHeatingOffLater)
            armed) /\
  commands 2 (sent (world s')) = commands 2 (sent (world s)) /\
  (commands 1 (sent (world s')) <= commands 1 (sent (world s)) + length lateness)%nat /\
  HM.Config (hm s') = HM.Config (hm s).
Proof.
  cbv zeta. revert d s. induction lateness as [| late rest IH]; intros d s.
  - cbn. split; [| split; [reflexivity | split; [lia | reflexivity]]].
    exists []. rewrite app_nil_r. split; [reflexivity |].
    split; [cbn; lia | constructor].
  - rewrite weeklyLoop_cons. cbv zeta.
    set (s0 := snd (arrive _ s)).
    set (s1 := snd (weeklyCheck rt controlURL s0)).
    destruct (IH (fst (nextWeeklyCheckDuration s1)) (snd (nextWeeklyCheckDuration s1)))
      as ((armed & Ht & Hlen & Hall) & Hc2 & Hc1 & Hcfg).
    destruct (nextWeeklyCheckDuration_state s1)
      as (Hhm1 & _ & _ & Hsent1 & _ & _ & Htimers1 & _).
    rewrite Hhm1, Hsent1, Htimers1 in *. clear Hhm1 Hsent1 Htimers1.
    pose proof (weeklyCheck_timers s0) as Ht0.
    destruct (weeklyCheck_commands s0) as (Hc20 & Hc10).
    destruct (weeklyCheck_keeps s0) as (Hcfg0 & _).
    cbv zeta in Ht0, Hc20, Hc10, Hcfg0. fold s1 in Ht0, Hc20, Hc10, Hcfg0.
    assert (Hs0 : timers (world s0) = timers (world s)
                  /\ sent (world s0) = sent (world s) /\ hm s0 = hm s)
      by (subst s0; cbn; auto).
    destruct Hs0 as (Hts & Hss & Hhs).
    rewrite Hts, Hss in *. rewrite Hhs in Ht0, Hcfg0.
    split; [| split; [congruence | split; [cbn [length]; lia | congruence]]].
    rewrite Ht, Ht0, <- app_assoc.
    eexists. split; [reflexivity |]. split.
    + rewrite length_app. destruct (HM.TemperatureExceeded (hm s)); cbn; lia.
    + apply Forall_app. split; [| exact Hall].
      destruct (HM.TemperatureExceeded (hm s)); repeat constructor.
Qed.

(** X15: the weekly loop only ever adds timers - at most one per fire, each
    of four hours for [turnHeatingOff], none cancelled -, sends at most
    one on command per fire and no off command, and keeps the
    configuration. *)
Theorem weekly_loop_bounds lateness s :
  let s' := snd (StartWeeklyCheck rt controlURL lateness s) in
  (exists armed,
     timers (world s') = (timers (world s) ++ armed)%list /\
     (length armed <= length lateness)%nat /\
     Forall (fun t => delay t = 4 * time.Hour /\ callback t = turnHeatingOffLater)
            armed) /\
  commands 2 (sent (world s')) = commands 2 (sent (world s)) /\
  (commands 1 (sent (world s')) <= commands 1 (sent (world s)) + length lateness)%nat /\
  HM.Config (hm s') = HM.Config (hm s).
Proof.
  cbv zeta. unfold StartWeeklyCheck, bind.
  destruct (nextWeeklyCheckDuration_state s)
    as (Hhm & _ & _ & Hsent & _ & _ & Htimers & _).
  destruct (nextWeeklyCheckDuration s) as [d s0]. cbn [snd] in *.
  rewrite <- Hhm, <- Hsent, <- Htimers. apply weeklyLoop_bounds.
Qed.

(** ** The first call of a manager without a token *)

Lemma login_then_more s :
  HM.Token (hm s) = "" ->
  checkURL rt "https://cloud.solar-manager.ch/v1/oauth/login" = None ->
  sentBetween s (snd (getAuthToken rt s)) [loginRequest (HM.Config (hm s))].
Proof.
  intros Ht Hurl. rewrite (getAuthToken_login rt s Ht).
  pose proof (login_cases s) as H. rewrite Hurl in H. tauto.
Qed.

Lemma turnHeating_logs_in_first mode s :
  HM.Token (hm s) = "" ->
  checkURL rt "https://cloud.solar-manager.ch/v1/oauth/login" = None ->
  exists rest,
    sentBetween s (snd (turnHeatingWith rt controlURL mode s))
                (loginRequest (HM.Config (hm s)) :: rest) /\
    (fst (login rt s) <> None -> rest = []).
Proof.
  intros Ht Hurl. pose proof (login_then_more s Ht Hurl) as Hl.
  destruct (turnHeating_sent rt controlURL mode s) as (l & Hl' & _ & Hs).
  unfold sentBetween in *. rewrite Hl in Hl'.
  apply app_inv_head in Hl'. subst l.
  eexists. split; [exact Hs |].
  rewrite (getAuthToken_login rt s Ht).
  destruct (fst (login rt s)); [reflexivity | congruence].
Qed.

(** X9: a manager that holds no token starts every authenticated call with
    the login request, and sends nothing after it when the login fails. *)
Theorem tokenless_call_logs_in_first s :
  HM.Token (hm s) = "" ->
  checkURL rt "https://cloud.solar-manager.ch/v1/oauth/login" = None ->
  let first := loginRequest (HM.Config (hm s)) in
  (exists rest,
     sentBetween s (snd (turnHeatingOn rt controlURL s)) (first :: rest) /\
     (fst (login rt s) <> None -> rest = [])) /\
  (exists rest,
     sentBetween s (snd (turnHeatingOff rt controlURL s)) (first :: rest) /\
     (fst (login rt s) <> None -> rest = [])) /\
  (exists rest,
     sentBetween s (snd (getTemperature rt s)) (first :: rest) /\
     (fst (login rt s) <> None -> rest = [])).
Proof.
  intros Ht Hurl. cbv zeta.
  split; [exact (turnHeating_logs_in_first 1 s Ht Hurl) |].
  split; [exact (turnHeating_logs_in_first 2 s Ht Hurl) |].
  pose proof (login_then_more s Ht Hurl) as Hl.
  unfold getTemperature, bind. unfold sentBetween in *.
  rewrite (getAuthToken_login rt s Ht) in *.
  destruct (login rt s) as [[e |] s1]; cbn [fst snd] in *.
  - exists []. split; [exact Hl | reflexivity].
  - unfold getHM, NewRequest, bind, Do, addHeader, ret.
    destruct s1 as [h [c z net snt fs dn tm out]]. cbn in Hl |- *.
    destruct (checkURL rt (SolarManagerURL (HM.Config h) +:+ "/"
                           +:+ SolarManagerSensorID (HM.Config h)));
      cbn [fst snd world sent].
    + exists []. split; [exact Hl | reflexivity].
    + eexists [_]. split; [| congruence].
      destruct net as [| x rest]; cbn; [| cases; cbn];
        rewrite Hl, <- app_assoc; reflexivity.
Qed.

(** X18: a first start - a new manager and no checkpoint file - fires the
    weekly check at once, and that check turns the heating on whatever
    the water temperature is: it arms the off timer, and its first
    request is the login. *)
Theorem first_start_forces_heating c w :
  files w !! "lastCheck.txt" = None ->
  let s := mkState (NewHeatingManager c) w in
  let s' := snd (weeklyCheck rt controlURL s) in
  fst (nextWeeklyCheckDuration s) = 0 /\
  timers (world s')
  = (timers w ++ [mkTimer (clock (world s')) (4 * time.Hour) turnHeatingOffLater])%list /\
  (checkURL rt "https://cloud.solar-manager.ch/v1/oauth/login" = None ->
   exists rest, sent (world s') = (sent w ++ loginRequest c :: rest)%list).
Proof.
  intros Hf. cbv zeta. set (s := mkState (NewHeatingManager c) w).
  split; [| split].
  - rewrite nextWeeklyCheckDuration_eq. unfold loadCheckpoint.
    pose proof (readLastCheckTime_eq s) as H. cbv zeta in H. rewrite H.
    subst s. cbn [hm world NewHeatingManager HM.LastCheckFile].
    destruct (decide _); [reflexivity |]. rewrite Hf. reflexivity.
  - exact (weeklyCheck_timers s).
  - intros Hurl. rewrite weeklyCheck_sent. cbn [hm s NewHeatingManager HM.TemperatureExceeded].
    destruct (turnHeating_logs_in_first 1 s eq_refl Hurl) as (rest & Hs & _).
    exists rest. exact Hs.
Qed.

(** ** The lifetime of a token *)

(** X5: a token obtained by a login is reused, without any request, by every
    call made up to its expiry, and refreshed by the first call made
    after it; a login that obtained an empty token is followed by
    another login. *)
Theorem token_lifetime s tok exp s2 :
  checkURL rt "https://cloud.solar-manager.ch/v1/oauth/login" = None ->
  authAnswer rt s tok exp ->
  Int64.in_range (exp * time.Second) ->
  hm s2 = hm (snd (login rt s)) ->
  let issued := clock (world (snd (login rt s))) in
  (tok <> "" -> clock (world s2) <= issued + exp * time.Second ->
   getAuthToken rt s2 = (None, s2)) /\
  (tok <> "" -> issued + exp * time.Second < clock (world s2) ->
   getAuthToken rt s2 = refreshToken rt s2) /\
  (tok = "" -> getAuthToken rt s2 = login rt s2).
Proof.
  intros Hurl Ha Hr Hhm. cbv zeta.
  pose proof (login_cases s) as H. rewrite Hurl in H. destruct H as [_ H].
  destruct Ha as (x & rest & resp & Hn & Hrep & Hs & Hd).
  rewrite Hn, Hrep, Hd in H.
  replace (StatusCode resp =? StatusOK) with true in H by lia.
  destruct H as (_ & Hclock & _ & Hm).
  rewrite Hm in Hhm. rewrite Hclock.
  rewrite (wrap64_id _ Hr) in Hhm.
  assert (Ht : HM.Token (hm s2) = tok) by (rewrite Hhm; reflexivity).
  assert (He : HM.TokenExpiry (hm s2)
               = clock (world s) + elapsed x + exp * time.Second)
    by (rewrite Hhm; reflexivity).
  split; [| split].
  - intros Hne Hle. apply getAuthToken_reuse; [congruence | lia].
  - intros Hne Hlt. apply getAuthToken_refresh; [congruence | lia].
  - intros ->. now apply getAuthToken_login.
Qed.

End MoreFacts.

(** *** The further properties at work *)

Lemma login_stores_session_witness :
  let s := mkState (NewHeatingManager sampleConfig)
             (sampleWorld sampleNoon [ok 200 "tok1"] ∅) in
  let s' := snd (login sampleRuntime s) in
  checkURL sampleRuntime "https://cloud.solar-manager.ch/v1/oauth/login" = None /\
  authAnswer sampleRuntime s "tok1" 3600 /\
  fst (login sampleRuntime s) = None /\
  HM.Token (hm s') = "tok1" /\
  HM.TokenExpiry (hm s') = sampleNoon + 2 * time.Second + 3600 * time.Second.
Proof.
  cbv zeta.
  assert (Ha : authAnswer sampleRuntime
                 (mkState (NewHeatingManager sampleConfig)
                    (sampleWorld sampleNoon [ok 200 "tok1"] ∅)) "tok1" 3600).
  { exists (ok 200 "tok1"), [], (mkResponse 200 "tok1"). repeat split; reflexivity. }
  assert (Hr : Int64.in_range (3600 * time.Second))
    by (split; vm_compute; discriminate).
  destruct (login_stores_session sampleRuntime
              (mkState (NewHeatingManager sampleConfig)
                 (sampleWorld sampleNoon [ok 200 "tok1"] ∅)) eq_refl)
    as [Hiff Hstore].
  cbv zeta in Hiff, Hstore.
  destruct (Hstore "tok1" 3600 Ha) as (Htok & _ & Hexp & _).
  split; [reflexivity |]. split; [exact Ha |].
  split; [apply Hiff; eauto |]. split; [exact Htok |].
  exact (Hexp Hr).
Defined.

Lemma refreshToken_stores_session_witness :
  let s := mkState (loggedIn false)
             (sampleWorld (sampleNoon + 3601 * time.Second) [ok 200 "tok2"] ∅) in
  let s' := snd (refreshToken sampleRuntime s) in
  checkURL sampleRuntime "https://cloud.solar-manager.ch/v1/oauth/refresh" = None /\
  authAnswer sampleRuntime s "tok2" 3600 /\
  HM.Token (hm s') = "tok2" /\
  map Header (sent (world s')) = [[("Authorization", "Bearer tok1")]].
Proof.
  cbv zeta.
  assert (Ha : authAnswer sampleRuntime
                 (mkState (loggedIn false)
                    (sampleWorld (sampleNoon + 3601 * time.Second)
                                 [ok 200 "tok2"] ∅)) "tok2" 3600).
  { exists (ok 200 "tok2"), [], (mkResponse 200 "tok2"). repeat split; reflexivity. }
  destruct (refreshToken_stores_session sampleRuntime
              (mkState (loggedIn false)
                 (sampleWorld (sampleNoon + 3601 * time.Second)
                              [ok 200 "tok2"] ∅)) eq_refl)
    as [_ Hstore].
  cbv zeta in Hstore.
  destruct (Hstore "tok2" 3600 Ha) as (Htok & _ & _ & Hsent).
  split; [reflexivity |]. split; [exact Ha |]. split; [exact Htok |].
  rewrite Hsent. reflexivity.
Defined.

Lemma failed_refresh_is_retried_witness :
  let s := mkState (loggedIn false)
             (sampleWorld (sampleNoon + 3601 * time.Second) [ok 401 "revoked"] ∅) in
  let s2 := mkState (loggedIn false)
              (sampleWorld (sampleNoon + 3900 * time.Second) [ok 401 "revoked"] ∅) in
  HM.Token (hm s) <> "" /\
  fst (getAuthToken sampleRuntime s)
  = Some "failed to refresh token: status code 401" /\
  hm s2 = hm (snd (getAuthToken sampleRuntime s)) /\
  clock (world s) <= clock (world s2) /\
  hm (snd (getAuthToken sampleRuntime s)) = loggedIn false /\
  getAuthToken sampleRuntime s2 = refreshToken sampleRuntime s2.
Proof.
  cbv zeta.
  assert (Hne : "tok1" <> "") by discriminate.
  assert (Hle : sampleNoon + 3601 * time.Second <= sampleNoon + 3900 * time.Second)
    by (vm_compute; discriminate).
  split; [exact Hne |]. split; [reflexivity |]. split; [reflexivity |].
  split; [exact Hle |].
  destruct (failed_refresh_is_retried sampleRuntime
              (mkState (loggedIn false)
                 (sampleWorld (sampleNoon + 3601 * time.Second)
                              [ok 401 "revoked"] ∅))
              "failed to refresh token: status code 401"
              (mkState (loggedIn false)
                 (sampleWorld (sampleNoon + 3900 * time.Second)
                              [ok 401 "revoked"] ∅))
              Hne eq_refl eq_refl Hle) as (_ & Hsame & _ & Hagain & _).
  split; [exact Hsame | exact Hagain].
Defined.

Lemma auth_failure_stops_the_call_witness :
  let s := mkState (NewHeatingManager sampleConfig)
             (sampleWorld sampleNoon [ok 401 "denied"; ok 200 "60"] ∅) in
  fst (getAuthToken sampleRuntime s)
  = Some "authentication failed: status code 401, body: denied" /\
  fst (turnHeatingOn sampleRuntime controlURL_heating_manager s)
  = Some "error getting auth token: authentication failed: status code 401, body: denied" /\
  fst (getTemperature sampleRuntime s)
  = inl "authentication failed: status code 401, body: denied".
Proof.
  cbv zeta.
  destruct (auth_failure_stops_the_call sampleRuntime controlURL_heating_manager
              (mkState (NewHeatingManager sampleConfig)
                 (sampleWorld sampleNoon [ok 401 "denied"; ok 200 "60"] ∅))
              "authentication failed: status code 401, body: denied" eq_refl)
    as (Hon & _ & Htemp & _).
  split; [reflexivity |].
  split; [exact (f_equal fst Hon) | exact (f_equal fst Htemp)].
Defined.

Lemma heat_pump_request_outcome_witness :
  let s := mkState (loggedIn false) (sampleWorld sampleNoon [ok 204 ""] ∅) in
  let r := makeHeatingControlRequest sampleRuntime "https://pump.example/on"
             (chargingMode 1) s in
  checkURL sampleRuntime "https://pump.example/on" = None /\
  fst r = None /\ output (world (snd r)) = [].
Proof.
  cbv zeta.
  destruct (heat_pump_request_outcome sampleRuntime "https://pump.example/on"
              (chargingMode 1)
              (mkState (loggedIn false) (sampleWorld sampleNoon [ok 204 ""] ∅))
              eq_refl)
    as (_ & _ & Hiff & _ & Hquiet).
  split; [reflexivity |]. split.
  - apply Hiff. right. exists (ok 204 ""), [], (mkResponse 204 "").
    repeat split; reflexivity.
  - apply Hquiet. intros (x & rest & resp & Hx & Hr & Hs).
    inversion Hx; subst. inversion Hr; subst. discriminate.
Defined.

Lemma getTemperature_outcome_witness :
  let s := mkState (loggedIn false) (sampleWorld sampleNoon [ok 200 "60"] ∅) in
  getAuthToken sampleRuntime s = (None, s) /\
  checkURL sampleRuntime
    "https://cloud.solar-manager.ch/v1/stream/sensor/site/sensor1" = None /\
  fst (getTemperature sampleRuntime s) = inr (float64_of_Z 60) /\
  map URL (sent (world (snd (getTemperature sampleRuntime s))))
  = ["https://cloud.solar-manager.ch/v1/stream/sensor/site/sensor1"].
Proof.
  cbv zeta.
  destruct (getTemperature_outcome sampleRuntime
              (mkState (loggedIn false) (sampleWorld sampleNoon [ok 200 "60"] ∅))
              (mkState (loggedIn false) (sampleWorld sampleNoon [ok 200 "60"] ∅))
              eq_refl eq_refl)
    as (_ & Hsent & Hiff).
  split; [reflexivity |]. split; [reflexivity |]. split.
  - apply Hiff. exists (ok 200 "60"), [], (mkResponse 200 "60").
    repeat split; reflexivity.
  - rewrite Hsent. reflexivity.
Defined.

Lemma monitoring_never_actuates_witness :
  let s := mkState (loggedIn false)
             (sampleWorld sampleNoon [ok 200 "60"; ok 200 "50"] ∅) in
  let r := StartTemperatureMonitoring sampleRuntime
             [sampleNoon + 5 * time.Minute; sampleNoon + 10 * time.Minute] s in
  0 < HM.CheckInterval (hm s) /\
  fst r = None /\
  commands 1 (sent (world (snd r))) = 0%nat /\
  timers (world (snd r)) = [].
Proof.
  cbv zeta.
  destruct (monitoring_never_actuates sampleRuntime
              [sampleNoon + 5 * time.Minute; sampleNoon + 10 * time.Minute]
              (mkState (loggedIn false)
                 (sampleWorld sampleNoon [ok 200 "60"; ok 200 "50"] ∅))
              eq_refl)
    as (Hrun & Hkeep & Hcom & _).
  cbv zeta in Hrun, Hkeep, Hcom.
  split; [reflexivity |]. split; [exact Hrun |]. split.
  - rewrite Hcom. reflexivity.
  - destruct Hkeep as (_ & _ & _ & _ & _ & _ & Ht). rewrite Ht. reflexivity.
Defined.

Lemma monitoring_needs_positive_interval_witness :
  let c := withCheckInterval 0 in
  let s := mkState (NewHeatingManager c) (sampleWorld sampleNoon [ok 200 "tok1"] ∅) in
  -153722867 <= CheckInterval c <= 153722867 /\
  CheckInterval c <= 0 /\
  StartTemperatureMonitoring sampleRuntime [sampleNoon] s
  = (Some "non-positive interval for NewTicker", s).
Proof.
  cbv zeta.
  assert (Hr : -153722867 <= CheckInterval (withCheckInterval 0) <= 153722867)
    by (split; vm_compute; discriminate).
  assert (Hz : CheckInterval (withCheckInterval 0) <= 0)
    by (vm_compute; discriminate).
  split; [exact Hr |]. split; [exact Hz |].
  exact (proj1 (proj2 (monitoring_needs_positive_interval sampleRuntime
                         (withCheckInterval 0)
                         (sampleWorld sampleNoon [ok 200 "tok1"] ∅)
                         [sampleNoon] Hr)) Hz).
Defined.

Lemma nextWeeklyCheckDuration_bounds_witness :
  let s := mkState (loggedIn false)
             (makeWorld (sampleNoon + 168 * time.Hour - time.Second) 0 [] []
                {["lastCheck.txt" := "2024-07-01T12:00:00Z"]} ∅ [] [] ∅
                (3 * time.Second)) in
  0 <= lag (world s) /\
  fst (nextWeeklyCheckDuration s) = - (2 * time.Second) /\
  - lag (world s) <= fst (nextWeeklyCheckDuration s) <= time.maxDuration.
Proof.
  cbv zeta.
  assert (Hlag : 0 <= 3 * time.Second) by (vm_compute; discriminate).
  split; [exact Hlag |]. split; [reflexivity |].
  pose proof (nextWeeklyCheckDuration_bounds
                (mkState (loggedIn false)
                   (makeWorld (sampleNoon + 168 * time.Hour - time.Second) 0 [] []
                      {["lastCheck.txt" := "2024-07-01T12:00:00Z"]} ∅ [] [] ∅
                      (3 * time.Second))) Hlag) as [Hlow Hhigh].
  split; [| exact Hhigh].
  eapply Z.le_trans; [apply Z.le_max_r | exact Hlow].
Defined.


Lemma unopenable_checkpoint_fires_without_pause_witness :
  let s := mkState (loggedIn false)
             (mkWorld sampleNoon 0 [ok 200 "done"; ok 200 "done"] [] ∅
                      {["lastCheck.txt"]} [] []) in
  (HM.LastCheckFile (hm s) ∈ denied (world s)) /\
  fst (StartWeeklyCheck sampleRuntime controlURL_heating_manager [0; 0] s) = 0 /\
  commands 1 (sent (world (snd (StartWeeklyCheck sampleRuntime
                                  controlURL_heating_manager [0; 0] s)))) = 2%nat.
Proof.
  cbv zeta.
  assert (Hd : "lastCheck.txt" ∈ ({["lastCheck.txt"]} : gset string))
    by (apply elem_of_singleton; reflexivity).
  split; [exact Hd |]. split; [| reflexivity].
  exact (unopenable_checkpoint_fires_without_pause sampleRuntime
           controlURL_heating_manager [0; 0]
           (mkState (loggedIn false)
              (mkWorld sampleNoon 0 [ok 200 "done"; ok 200 "done"] [] ∅
                       {["lastCheck.txt"]} [] []))
           Hd).
Defined.

Lemma tokenless_call_logs_in_first_witness :
  let s := mkState (NewHeatingManager sampleConfig)
             (sampleWorld sampleNoon [ok 200 "tok1"; ok 200 "60"] ∅) in
  HM.Token (hm s) = "" /\
  checkURL sampleRuntime "https://cloud.solar-manager.ch/v1/oauth/login" = None /\
  exists rest,
    sent (world (snd (getTemperature sampleRuntime s)))
    = loginRequest sampleConfig :: rest.
Proof.
  cbv zeta.
  destruct (tokenless_call_logs_in_first sampleRuntime controlURL_heating_manager
              (mkState (NewHeatingManager sampleConfig)
                 (sampleWorld sampleNoon [ok 200 "tok1"; ok 200 "60"] ∅))
              eq_refl eq_refl)
    as (_ & _ & rest & Hs & _).
  split; [reflexivity |]. split; [reflexivity |].
  exists rest. exact Hs.
Defined.

Lemma first_start_forces_heating_witness :
  let w := sampleWorld sampleNoon [ok 200 "tok1"; ok 200 "done"] ∅ in
  let s := mkState (NewHeatingManager sampleConfig) w in
  files w !! "lastCheck.txt" = None /\
  fst (nextWeeklyCheckDuration s) = 0 /\
  length (timers (world (snd (weeklyCheck sampleRuntime
                                controlURL_heating_manager s)))) = 1%nat.
Proof.
  cbv zeta.
  destruct (first_start_forces_heating sampleRuntime controlURL_heating_manager
              sampleConfig
              (sampleWorld sampleNoon [ok 200 "tok1"; ok 200 "done"] ∅)
              (lookup_empty _))
    as (Hdue & Htimers & _).
  cbv zeta in Hdue, Htimers.
  split; [apply lookup_empty |]. split; [exact Hdue |].
  rewrite Htimers. reflexivity.
Defined.

Lemma token_lifetime_witness :
  let s := mkState (NewHeatingManager sampleConfig)
             (sampleWorld sampleNoon [ok 200 "tok1"] ∅) in
  let s2 := mkState (hm (snd (login sampleRuntime s)))
              (sampleWorld (sampleNoon + 3602 * time.Second) [ok 200 "tok2"] ∅) in
  authAnswer sampleRuntime s "tok1" 3600 /\
  Int64.in_range (3600 * time.Second) /\
  clock (world s2) <= clock (world (snd (login sampleRuntime s))) + 3600 * time.Second /\
  getAuthToken sampleRuntime s2 = (None, s2).
Proof.
  cbv zeta.
  assert (Ha : authAnswer sampleRuntime
                 (mkState (NewHeatingManager sampleConfig)
                    (sampleWorld sampleNoon [ok 200 "tok1"] ∅)) "tok1" 3600).
  { exists (ok 200 "tok1"), [], (mkResponse 200 "tok1"). repeat split; reflexivity. }
  assert (Hr : Int64.in_range (3600 * time.Second))
    by (split; vm_compute; discriminate).
  assert (Hne : "tok1" <> "") by discriminate.
  assert (Hle : sampleNoon + 3602 * time.Second
                <= sampleNoon + 2 * time.Second + 3600 * time.Second)
    by (vm_compute; discriminate).
  split; [exact Ha |]. split; [exact Hr |]. split; [exact Hle |].
  exact (proj1 (token_lifetime sampleRuntime
                  (mkState (NewHeatingManager sampleConfig)
                     (sampleWorld sampleNoon [ok 200 "tok1"] ∅))
                  "tok1" 3600
                  (mkState (hm (snd (login sampleRuntime
                                       (mkState (NewHeatingManager sampleConfig)
                                          (sampleWorld sampleNoon [ok 200 "tok1"] ∅)))))
                     (sampleWorld (sampleNoon + 3602 * time.Second)
                                  [ok 200 "tok2"] ∅))
                  eq_refl Ha Hr eq_refl) Hne Hle).
Defined.
